(** * iris/api/helpers/general.py: UI helper flows over a recorded event trace

    The helpers of [general.py] drive Firefox through the automation layer
    ([iris.api.core]: [wait], [exists], [click], [type], ...), the keyboard
    shortcuts module and a few library calls.  None of these collaborators is
    part of [general.py]; here every call to one of them is recorded as an
    [Event], and its answer (return value or raised exception) is supplied
    by a [World], a function of the history of calls made so far.  The
    helpers themselves are transcribed statement by statement into a small
    monad [Py] that has Python's three ways of leaving a statement: falling
    through, [return], and [raise].  Calls to [logger] are not recorded. *)

From Stdlib Require Import String Ascii List ZArith QArith Bool Lia.
Import ListNotations.
Local Close Scope Q_scope.
Local Open Scope string_scope.
Local Open Scope list_scope.

Infix "+++" := String.append (at level 60, right associativity).

(** ** Python strings: the [str] methods the helpers use *)

Module PyStr.

Definition semicolon : ascii := "059"%char.
Definition dquote : ascii := "034"%char.
Definition newline : ascii := "010"%char.

(** [c.isspace()] for a byte string: space, \t, \n, \v, \f, \r. *)
Definition isspace (c : ascii) : bool :=
  let n := nat_of_ascii c in
  Nat.eqb n 32 || (Nat.leb 9 n && Nat.leb n 13).

(** [c.isdigit()] for one character. *)
Definition isdigit_char (c : ascii) : bool :=
  let n := nat_of_ascii c in
  Nat.leb 48 n && Nat.leb n 57.

Definition is_empty (s : string) : bool :=
  match s with EmptyString => true | String _ _ => false end.

Fixpoint all_chars (p : ascii -> bool) (s : string) : bool :=
  match s with
  | EmptyString => true
  | String c s' => p c && all_chars p s'
  end.

(** [s.isdigit()]: false on the empty string, else every character is a
    digit. *)
Definition isdigit (s : string) : bool :=
  negb (is_empty s) && all_chars isdigit_char s.

Fixpoint lstrip (s : string) : string :=
  match s with
  | EmptyString => EmptyString
  | String c s' => if isspace c then lstrip s' else s
  end.

Fixpoint rstrip (s : string) : string :=
  match s with
  | EmptyString => EmptyString
  | String c s' =>
      let r := rstrip s' in
      if isspace c && is_empty r then EmptyString else String c r
  end.

(** [s.strip()] *)
Definition strip (s : string) : string := rstrip (lstrip s).

(** [s.split(sep)] for a one-character separator: every occurrence
    splits, empty fields are kept, and the result is never empty. *)
Fixpoint split (sep : ascii) (s : string) : list string :=
  match s with
  | EmptyString => [EmptyString]
  | String c s' =>
      if Ascii.eqb c sep then EmptyString :: split sep s'
      else match split sep s' with
           | [] => [String c EmptyString]
           | field :: fields => String c field :: fields
           end
  end.

(** [sep not in s] *)
Definition free_of (sep : ascii) (s : string) : bool :=
  all_chars (fun c => negb (Ascii.eqb c sep)) s.

End PyStr.

(** ** Data of the automation layer *)

(** [Pattern(image)], optionally refined by [.similar(s)] and
    [.target_offset(dx, dy)].  The constants of the pattern catalogue
    ([NavBar.HOME_BUTTON], ...) are patterns whose image is not visible from
    [general.py]; they are named by their qualified constant name. *)
Record Pattern := mkPattern {
  image_file : string;
  similarity : option Q;
  offset : option (Z * Z)
}.

Definition Pattern_ (img : string) : Pattern := mkPattern img None None.
Definition similar (p : Pattern) (s : Q) : Pattern :=
  mkPattern (image_file p) (Some s) (offset p).
Definition target_offset (p : Pattern) (dx dy : Z) : Pattern :=
  mkPattern (image_file p) (similarity p) (Some (dx, dy)).

Module NavBar.
Definition HOME_BUTTON : Pattern := Pattern_ "NavBar.HOME_BUTTON".
Definition HAMBURGER_MENU : Pattern := Pattern_ "NavBar.HAMBURGER_MENU".
End NavBar.

(** The result of a successful [find]. *)
Record Match := mkMatch { m_x : Z; m_y : Z; m_width : Z; m_height : Z }.

(** [Region(x, y, width, height)] *)
Record Region := mkRegion { r_x : Z; r_y : Z; r_width : Z; r_height : Z }.

Inductive Platform := MAC | WINDOWS | LINUX.

Definition Platform_eqb (a b : Platform) : bool :=
  match a, b with
  | MAC, MAC | WINDOWS, WINDOWS | LINUX, LINUX => true
  | _, _ => false
  end.

Inductive Key := ENTER | ESC | TAB | SPACE | ALT.

(** The argument of [type]: a key constant or literal text. *)
Inductive Typed := TKey (k : Key) | TText (s : string).

(** The argument of [hover]: a [Location] or a pattern. *)
Inductive Target := Location (x y : Z) | OnPattern (p : Pattern).

(** [Settings.*_DELAY]: the configured pauses, kept symbolic. *)
Inductive Delay := FX_DELAY | UI_DELAY | UI_DELAY_LONG | SYSTEM_DELAY.

(** Helpers of the keyboard shortcuts module that the flows call. *)
Inductive Shortcut :=
  NewTab | CloseTab | SelectLocationBar | QuitFirefox | EditSelectAll | EditCopy.

(** ** Exceptions *)

(** Exception classes.  [ProtocolFormatError] is the class the design
    taxonomy names for malformed clipboard data; no statement of
    [general.py] raises it. *)
Inductive ExnClass :=
  | FindError | APIHelperError | ValueError | IndexError
  | UnboundLocalError | OSError | SystemExit | ProtocolFormatError.

Record Exn := mkExn { exn_class : ExnClass; message : string }.

Definition ExnClass_eqb (a b : ExnClass) : bool :=
  match a, b with
  | FindError, FindError | APIHelperError, APIHelperError
  | ValueError, ValueError | IndexError, IndexError
  | UnboundLocalError, UnboundLocalError | OSError, OSError
  | SystemExit, SystemExit | ProtocolFormatError, ProtocolFormatError => true
  | _, _ => false
  end.

(** [except FindError] *)
Definition is_FindError (e : Exn) : bool := ExnClass_eqb (exn_class e) FindError.

(** [except Exception]: everything but [SystemExit]. *)
Definition is_Exception (e : Exn) : bool := negb (ExnClass_eqb (exn_class e) SystemExit).

(** [except (FindError, ValueError)] *)
Definition is_FindError_or_ValueError (e : Exn) : bool :=
  ExnClass_eqb (exn_class e) FindError || ExnClass_eqb (exn_class e) ValueError.

(** ** Events and the world *)

Inductive Event :=
  | EWait (p : Pattern) (timeout : Z)
  | EWaitVanish (p : Pattern) (timeout : Z)
  | EExists (p : Pattern) (timeout : Z)
  | EFind (p : Pattern)
  | EClick (p : Pattern)
  | EHover (t : Target) (duration : option Q)
  | EType (text : Typed)
  | EPaste (text : string)
  | EKeyDown (k : Key)
  | EKeyUp (k : Key)
  | ESleep (d : Delay)
  | EShortcut (s : Shortcut)
  | EGetClipboard
  | EAppFinish (code : Z)
  | EPopen (cmd : list string)
  | EOpen (path : string) (mode : string)
  | EWrite (path : string) (data : string)
  | EClose (path : string).

(** Decoded JSON is opaque to the helpers: they hand it back unchanged. *)
Inductive Json := Decoded (text : string).

(** What the helpers cannot see.  Every answer may depend on the history of
    calls made before the one being answered. *)
Record World := mkWorld {
  (** the exception with which a recorded call ends, if it raises *)
  fault : list Event -> Event -> option Exn;
  (** the answer of [exists] *)
  probe : list Event -> Pattern -> bool;
  (** the value [find] returns when it does not raise ([None] is Python's) *)
  located : list Event -> Pattern -> option Match;
  (** the text [Env.get_clipboard()] returns *)
  clipboard : list Event -> string;
  (** [get_image_size] *)
  image_size : Pattern -> Z * Z;
  (** [Settings.get_os()] *)
  os : Platform;
  (** whether [json.loads] accepts a text *)
  valid_json : string -> bool;
  (** [os.path.join] on two components *)
  path_join : string -> string -> string
}.

(** ** The statement monad *)

Inductive Signal (R A : Type) :=
  | Next (a : A)        (* the statement completed with value [a] *)
  | Return (r : R)      (* a [return] of the enclosing function *)
  | Raise (e : Exn).    (* an exception is propagating *)
Arguments Next {R A} a.
Arguments Return {R A} r.
Arguments Raise {R A} e.

(** A statement of a function whose return type is [R]: given the world and
    the history, the events it records and how it ends. *)
Definition Py (R A : Type) : Type := World -> list Event -> list Event * Signal R A.

Definition ret {R A} (a : A) : Py R A := fun _ _ => ([], Next a).
Definition pass {R} : Py R unit := ret tt.
Definition return_ {R A} (r : R) : Py R A := fun _ _ => ([], Return r).
Definition raise {R A} (e : Exn) : Py R A := fun _ _ => ([], Raise e).

Definition bind {R A B} (m : Py R A) (f : A -> Py R B) : Py R B :=
  fun w h =>
    let (ev1, s) := m w h in
    match s with
    | Next a => let (ev2, s2) := f a w (h ++ ev1) in (ev1 ++ ev2, s2)
    | Return r => (ev1, Return r)
    | Raise e => (ev1, Raise e)
    end.

Declare Scope py_scope.
Delimit Scope py_scope with py.
Notation "x <- c ;; k" := (bind c (fun x => k))
  (at level 100, c at next level, right associativity) : py_scope.
Notation "c ;; k" := (bind c (fun _ => k))
  (at level 100, right associativity) : py_scope.
Local Open Scope py_scope.

(** [def f(...): body] called as an expression: a [return r] yields [r],
    falling off the end yields [none] (Python's [None]). *)
Definition def {R R'} (none : R) (body : Py R unit) : Py R' R :=
  fun w h =>
    let (ev, s) := body w h in
    (ev, match s with
         | Next _ => Next none
         | Return r => Next r
         | Raise e => Raise e
         end).

(** The same for a body that cannot fall off its end: every path through
    it returns or raises. *)
Definition fn {R R'} (body : Py R Empty_set) : Py R' R :=
  fun w h =>
    let (ev, s) := body w h in
    (ev, match s with
         | Next v => match v with end
         | Return r => Next r
         | Raise e => Raise e
         end).

(** [try: body / except <catches> as e: handler e] *)
Definition try_except {R A} (body : Py R A) (catches : Exn -> bool)
    (handler : Exn -> Py R A) : Py R A :=
  fun w h =>
    let (ev1, s) := body w h in
    match s with
    | Raise e =>
        if catches e
        then let (ev2, s2) := handler e w (h ++ ev1) in (ev1 ++ ev2, s2)
        else (ev1, Raise e)
    | _ => (ev1, s)
    end.

(** [try: body / except <catches> as e: handler e / else: orelse] *)
Definition try_except_else {R A B} (body : Py R A) (catches : Exn -> bool)
    (handler : Exn -> Py R B) (orelse : A -> Py R B) : Py R B :=
  fun w h =>
    let (ev1, s) := body w h in
    match s with
    | Next a => let (ev2, s2) := orelse a w (h ++ ev1) in (ev1 ++ ev2, s2)
    | Return r => (ev1, Return r)
    | Raise e =>
        if catches e
        then let (ev2, s2) := handler e w (h ++ ev1) in (ev1 ++ ev2, s2)
        else (ev1, Raise e)
    end.

(** [try: body / finally: fin]: [fin] runs on every way out of [body]; if
    [fin] itself returns or raises, that replaces the pending signal. *)
Definition try_finally {R A} (body : Py R A) (fin : Py R unit) : Py R A :=
  fun w h =>
    let (ev1, s) := body w h in
    let (ev2, s2) := fin w (h ++ ev1) in
    (ev1 ++ ev2, match s2 with
                 | Next _ => s
                 | Return r => Return r
                 | Raise e => Raise e
                 end).

(** [for x in xs: body x] *)
Fixpoint for_ {R A} (xs : list A) (body : A -> Py R unit) : Py R unit :=
  match xs with
  | [] => pass
  | x :: xs' => body x ;; for_ xs' body
  end.

(** Running a helper: the recorded events and the result of the call. *)
Definition events {R A} (r : list Event * Signal R A) : list Event := fst r.
Definition result {R A} (r : list Event * Signal R A) : Signal R A := snd r.

(** ** The collaborators, as recorded calls *)

(** A call that returns nothing of interest and may raise. *)
Definition call {R} (e : Event) : Py R unit :=
  fun w h => ([e], match fault w h e with
                   | Some x => Raise x
                   | None => Next tt
                   end).

(** [wait] and [wait_vanish] report a timeout by raising [FindError]; that
    is the exception the [except] clauses around them handle. *)
Definition wait {R} (p : Pattern) (timeout : Z) : Py R unit := call (EWait p timeout).
Definition wait_vanish {R} (p : Pattern) (timeout : Z) : Py R unit :=
  call (EWaitVanish p timeout).
Definition click {R} (p : Pattern) : Py R unit := call (EClick p).
Definition hover {R} (t : Target) (duration : option Q) : Py R unit :=
  call (EHover t duration).
Definition type {R} (t : Typed) : Py R unit := call (EType t).
Definition paste {R} (s : string) : Py R unit := call (EPaste s).
Definition key_down {R} (k : Key) : Py R unit := call (EKeyDown k).
Definition key_up {R} (k : Key) : Py R unit := call (EKeyUp k).

Definition new_tab {R} : Py R unit := call (EShortcut NewTab).
Definition close_tab {R} : Py R unit := call (EShortcut CloseTab).
Definition select_location_bar {R} : Py R unit := call (EShortcut SelectLocationBar).
Definition quit_firefox {R} : Py R unit := call (EShortcut QuitFirefox).
Definition edit_select_all {R} : Py R unit := call (EShortcut EditSelectAll).
Definition edit_copy {R} : Py R unit := call (EShortcut EditCopy).

(** [app.finish(code=...)] *)
Definition app_finish {R} (code : Z) : Py R unit := call (EAppFinish code).

(** [subprocess.Popen(cmd, ...)]; the process object is dropped. *)
Definition Popen {R} (cmd : list string) : Py R unit := call (EPopen cmd).

(** [time.sleep] only passes time. *)
Definition sleep {R} (d : Delay) : Py R unit := fun _ _ => ([ESleep d], Next tt).

(** [exists] is a probe: it answers and does not raise. *)
Definition exists_ {R} (p : Pattern) (timeout : Z) : Py R bool :=
  fun w h => ([EExists p timeout], Next (probe w h p)).

(** [find]: a match, Python's [None], or an exception. *)
Definition find {R} (p : Pattern) : Py R (option Match) :=
  fun w h => ([EFind p], match fault w h (EFind p) with
                         | Some x => Raise x
                         | None => Next (located w h p)
                         end).

(** [Env.get_clipboard()] *)
Definition get_clipboard {R} : Py R string :=
  fun w h => ([EGetClipboard], match fault w h EGetClipboard with
                               | Some x => Raise x
                               | None => Next (clipboard w h)
                               end).

Definition get_os {R} : Py R Platform := fun w _ => ([], Next (os w)).
Definition get_image_size {R} (p : Pattern) : Py R (Z * Z) :=
  fun w _ => ([], Next (image_size w p)).

(** [json.loads]: [ValueError] on text that is not JSON. *)
Definition json_loads {R} (text : string) : Py R Json :=
  fun w _ => ([], if valid_json w text then Next (Decoded text)
                  else Raise (mkExn ValueError "No JSON object could be decoded")).

(** [xs[i]] on a list: [IndexError] out of range. *)
Definition index {R A} (xs : list A) (i : nat) : Py R A :=
  match nth_error xs i with
  | Some x => ret x
  | None => raise (mkExn IndexError "list index out of range")
  end.

(** Reading a local variable that only some branch assigned. *)
Definition local {R A} (name : string) (v : option A) : Py R A :=
  match v with
  | Some x => ret x
  | None => raise (mkExn UnboundLocalError
                     ("local variable '" +++ name +++ "' referenced before assignment"))
  end.

(** ** launch_firefox *)

Definition launch_firefox {R} (path : string) (profile url : option string)
    (args : option (list string)) : Py R (list string) :=
  fn (
    let args := match args with None => [] | Some a => a end in
    match profile with
    | None => raise (mkExn ValueError EmptyString)
    | Some profile =>
        let cmd := [path; "-foreground"; "-no-remote"; "-profile"; profile] in
        let cmd := fold_left (fun cmd arg => cmd ++ [arg]) args cmd in
        let cmd := match url with
                   | Some url => (cmd ++ ["-new-tab"]) ++ [url]
                   | None => cmd
                   end in
        Popen cmd ;;
        return_ cmd
    end).

(** ** confirm_firefox_quit and the crash reporter *)

(** [if Settings.get_os() == p: then_ / else: else_] *)
Definition if_os {R A} (p : Platform) (then_ else_ : Py R A) : Py R A :=
  o <- get_os ;;
  if Platform_eqb o p then then_ else else_.

Definition reset_mouse {R} : Py R unit :=
  def tt (hover (Location 0 0) None).

(** The pattern variables of [click_auxiliary_window_control]; each is
    assigned on one side of the first platform test only. *)
Record AuxiliaryLocals := mkAuxiliaryLocals {
  auxiliary_window_controls_pattern : option Pattern;
  red_button_pattern : option Pattern;
  hovered_red_button : option Pattern;
  close_button_pattern : option Pattern;
  zoom_full_button_pattern : option Pattern;
  zoom_restore_button_pattern : option Pattern;
  minimize_button_pattern : option Pattern
}.

Definition cannot_find_controls : Exn :=
  mkExn APIHelperError "Can't find the auxiliary window controls, aborting.".

Definition click_auxiliary_window_control {R} (button : string) : Py R unit :=
  def tt (
    v <- if_os MAC
           (ret (mkAuxiliaryLocals
                   (Some (Pattern_ "auxiliary_window_controls.png"))
                   (Some (similar (Pattern_ "unhovered_red_control.png") (9 # 10)%Q))
                   (Some (Pattern_ "hovered_red_button.png"))
                   None None None None))
           (ret (mkAuxiliaryLocals
                   None None None
                   (Some (Pattern_ "auxiliary_window_close_button.png"))
                   (Some (Pattern_ "auxiliary_window_maximize.png"))
                   (Some (Pattern_ "minimize_full_screen_auxiliary_window.png"))
                   (Some (Pattern_ "auxiliary_window_minimize.png")))) ;;
    hover (Location 1 300) None ;;
    if_os MAC
      (try_except
         (p <- local "red_button_pattern" (red_button_pattern v) ;; wait p 5)
         is_FindError (fun _ => raise cannot_find_controls))
      (if_os LINUX (hover (Location 80 0) None) pass ;;
       try_except
         (p <- local "close_button_pattern" (close_button_pattern v) ;; wait p 5)
         is_FindError (fun _ => raise cannot_find_controls)) ;;
    if String.eqb button "close" then
      if_os MAC
        (p <- local "red_button_pattern" (red_button_pattern v) ;;
         hover (OnPattern p) (Some (3 # 10)%Q) ;;
         q <- local "hovered_red_button" (hovered_red_button v) ;;
         click q)
        (p <- local "close_button_pattern" (close_button_pattern v) ;;
         click p)
    else if String.eqb button "minimize" then
      if_os MAC
        (window_controls_pattern <-
           local "auxiliary_window_controls_pattern" (auxiliary_window_controls_pattern v) ;;
         size <- get_image_size window_controls_pattern ;;
         let (width, height) := size in
         click (target_offset window_controls_pattern (width / 2)%Z (height / 2)%Z))
        (p <- local "minimize_button_pattern" (minimize_button_pattern v) ;;
         click p)
    else if String.eqb button "full_screen" then
      window_controls_pattern <-
        local "auxiliary_window_controls_pattern" (auxiliary_window_controls_pattern v) ;;
      size <- get_image_size window_controls_pattern ;;
      let (width, height) := size in
      click (target_offset window_controls_pattern (width - 10)%Z (height / 2)%Z) ;;
      if_os LINUX (hover (Location 80 0) None) pass
    else if String.eqb button "maximize" then
      if_os MAC
        (key_down ALT ;;
         window_controls_pattern <-
           local "auxiliary_window_controls_pattern" (auxiliary_window_controls_pattern v) ;;
         size <- get_image_size window_controls_pattern ;;
         let (width, height) := size in
         click (target_offset window_controls_pattern (width - 10)%Z (height / 2)%Z) ;;
         key_up ALT)
        (p <- local "zoom_full_button_pattern" (zoom_full_button_pattern v) ;;
         click p ;;
         if_os LINUX (hover (Location 80 0) None) pass)
    else if String.eqb button "zoom_restore" then
      if_os MAC
        (reset_mouse ;;
         p <- local "red_button_pattern" (red_button_pattern v) ;;
         hover (OnPattern p) None)
        pass ;;
      p <- local "zoom_restore_button_pattern" (zoom_restore_button_pattern v) ;;
      click p
    else pass).

Definition reporter_pattern : Pattern := Pattern_ "crash_sorry.png".
Definition crash_annotation : string := "Iris automation test crash.".

Definition address_crash_reporter {R} : Py R unit :=
  def tt (
    found <- exists_ reporter_pattern 2 ;;
    if found then
      click reporter_pattern ;;
      type (TText crash_annotation) ;;
      click (Pattern_ "quit_firefox_button.png") ;;
      try_except_else (wait_vanish reporter_pattern 20)
        is_FindError
        (fun _ => click_auxiliary_window_control "close")
        (fun _ => return_ tt)
    else
      return_ tt).

(** [confirm_firefox_quit(app)]; of [app] only [app.finish] is used. *)
Definition confirm_firefox_quit {R} : Py R unit :=
  def tt (
    try_except
      (wait_vanish NavBar.HOME_BUTTON 10 ;;
       address_crash_reporter)
      is_FindError
      (fun _ =>
         type (TKey ENTER) ;;
         sleep FX_DELAY ;;
         type (TKey ESC) ;;
         sleep FX_DELAY ;;
         click NavBar.HOME_BUTTON ;;
         quit_firefox ;;
         try_except
           (wait_vanish NavBar.HOME_BUTTON 10 ;;
            address_crash_reporter)
           is_FindError
           (fun _ => app_finish 1))).

(** ** Reading and changing preferences through about:config *)

Definition copy_to_clipboard {R} : Py R string :=
  fn (
    edit_select_all ;;
    edit_copy ;;
    text <- get_clipboard ;;
    let value := PyStr.strip text in
    return_ value).

(** [copy_to_clipboard().split(';'[0])[1]] with its handler, the [try]
    statement that [get_pref_value] and [change_preference] both contain;
    [';'[0]] is the character [;]. *)
Definition retrieve_value {R} : Py R string :=
  try_except
    (text <- copy_to_clipboard ;;
     index (PyStr.split PyStr.semicolon text) 1)
    is_Exception
    (fun e => raise (mkExn APIHelperError
                       ("Failed to retrieve preference value. " +++ message e))).

Definition change_preference {R} (pref_name value : string) : Py R unit :=
  def tt (
    try_except
      (new_tab ;;
       select_location_bar ;;
       paste "about:config" ;;
       type (TKey ENTER) ;;
       sleep UI_DELAY ;;
       type (TKey SPACE) ;;
       sleep UI_DELAY ;;
       paste pref_name ;;
       sleep UI_DELAY_LONG ;;
       type (TKey TAB) ;;
       sleep UI_DELAY_LONG ;;
       retrieved_value <- retrieve_value ;;
       (if String.eqb retrieved_value value then
          return_ tt
        else
          type (TKey ENTER) ;;
          let dialog_box_pattern := Pattern_ "preference_dialog_icon.png" in
          try_except
            (wait dialog_box_pattern 3 ;;
             paste value ;;
             type (TKey ENTER))
            is_FindError
            (fun _ => pass)) ;;
       close_tab)
      is_Exception
      (fun _ => raise (mkExn APIHelperError
                         ("Could not set value: " +++ value +++
                          " to preference: " +++ pref_name)))).

Definition get_pref_value {R} (pref_name : string) : Py R string :=
  fn (
    new_tab ;;
    select_location_bar ;;
    paste "about:config" ;;
    type (TKey ENTER) ;;
    sleep UI_DELAY ;;
    type (TKey SPACE) ;;
    sleep UI_DELAY ;;
    paste pref_name ;;
    sleep UI_DELAY_LONG ;;
    type (TKey TAB) ;;
    sleep UI_DELAY_LONG ;;
    value <- retrieve_value ;;
    close_tab ;;
    return_ value).

Definition get_support_info {R} : Py R Json :=
  fn (
    let copy_raw_data_to_clipboard := Pattern_ "about_support_copy_raw_data_button.png" in
    new_tab ;;
    select_location_bar ;;
    paste "about:support" ;;
    type (TKey ENTER) ;;
    sleep UI_DELAY ;;
    try_finally
      (try_except
         (click copy_raw_data_to_clipboard ;;
          sleep UI_DELAY_LONG ;;
          json_text <- get_clipboard ;;
          j <- json_loads json_text ;;
          return_ j)
         is_Exception
         (fun e => raise (mkExn APIHelperError
                            ("Failed to retrieve support information value. " +++ message e))))
      close_tab).

Definition get_telemetry_info {R} : Py R Json :=
  fn (
    let copy_raw_data_to_clipboard_pattern := Pattern_ "copy_raw_data_to_clipboard.png" in
    let raw_json_pattern := Pattern_ "raw_json.png" in
    let raw_data_pattern := Pattern_ "raw_data.png" in
    new_tab ;;
    paste "about:telemetry" ;;
    type (TKey ENTER) ;;
    try_except
      (wait raw_json_pattern 10 ;;
       click raw_json_pattern)
      is_FindError_or_ValueError
      (fun _ => raise (mkExn APIHelperError "'RAW JSON' button not present in the page.")) ;;
    try_except
      (wait raw_data_pattern 10 ;;
       click raw_data_pattern)
      is_FindError_or_ValueError
      (fun _ => close_tab ;;
                raise (mkExn APIHelperError "'Raw Data' button not present in the page.")) ;;
    try_finally
      (try_except
         (click copy_raw_data_to_clipboard_pattern ;;
          sleep UI_DELAY ;;
          json_text <- get_clipboard ;;
          j <- json_loads json_text ;;
          return_ j)
         is_Exception
         (fun e => raise (mkExn APIHelperError
                            ("Failed to retrieve raw message information value. " +++ message e))))
      close_tab).

(** ** create_region_from_image *)

Definition create_region_from_image {R} (image : Pattern) : Py R Region :=
  fn (
    try_except
      (m <- find image ;;
       match m with
       | Some m =>
           let hamburger_pop_up_menu_weight := 285%Z in
           let hamburger_pop_up_menu_height := 655%Z in
           let region := mkRegion (m_x m - hamburger_pop_up_menu_weight)%Z (m_y m)
                           hamburger_pop_up_menu_weight hamburger_pop_up_menu_height in
           return_ region
       | None => raise (mkExn APIHelperError "No matching found.")
       end)
      is_FindError
      (fun _ => raise (mkExn APIHelperError "Image not present."))).

(** ** write_profile_prefs *)

(** The attributes of a test case that [write_profile_prefs] reads. *)
Record BaseTest := mkBaseTest {
  prefs : list string;
  profile_path : string
}.

(** [name, value = xs]: unpacking into exactly two targets. *)
Definition unpack2 {R} (xs : list string) : Py R (string * string) :=
  match xs with
  | [name; value] => ret (name, value)
  | [] => raise (mkExn ValueError "need more than 0 values to unpack")
  | [_] => raise (mkExn ValueError "need more than 1 value to unpack")
  | _ => raise (mkExn ValueError "too many values to unpack")
  end.

(** [s] between double quotes. *)
Definition quoted (s : string) : string :=
  String PyStr.dquote (s +++ String PyStr.dquote EmptyString).

(** ['user_pref("%s", %s);\n' % (name, value)] *)
Definition user_pref_bare (name value : string) : string :=
  "user_pref(" +++ quoted name +++ ", " +++ value +++ ");" +++
  String PyStr.newline EmptyString.

(** ['user_pref("%s", "%s");\n' % (name, value)] *)
Definition user_pref_quoted (name value : string) : string :=
  "user_pref(" +++ quoted name +++ ", " +++ quoted value +++ ");" +++
  String PyStr.newline EmptyString.

Definition os_path_join {R} (a b : string) : Py R string :=
  fun w _ => ([], Next (path_join w a b)).

Definition write_profile_prefs {R} (test_case : BaseTest) : Py R unit :=
  def tt (
    if negb (Nat.eqb (length (prefs test_case)) 0) then
      pref_file <- os_path_join (profile_path test_case) "user.js" ;;
      call (EOpen pref_file "w") ;;
      for_ (prefs test_case) (fun pref =>
        nv <- unpack2 (PyStr.split PyStr.semicolon pref) ;;
        let (name, value) := nv in
        if String.eqb value "true" || String.eqb value "false" || PyStr.isdigit value then
          call (EWrite pref_file (user_pref_bare name value))
        else
          call (EWrite pref_file (user_pref_quoted name value))) ;;
      call (EClose pref_file)
    else
      pass).

(** ** Reading a trace *)

Definition is_click (e : Event) : bool :=
  match e with EClick _ => true | _ => false end.

(** Keyboard input: typed text and keys, pasted text, shortcuts. *)
Definition is_keystroke (e : Event) : bool :=
  match e with
  | EType _ | EPaste _ | EKeyDown _ | EKeyUp _ | EShortcut _ => true
  | _ => false
  end.

Definition is_wait_vanish_of (img : string) (e : Event) : bool :=
  match e with
  | EWaitVanish p _ => String.eqb (image_file p) img
  | _ => false
  end.

Definition is_shortcut (s : Shortcut) (e : Event) : bool :=
  match e, s with
  | EShortcut NewTab, NewTab | EShortcut CloseTab, CloseTab
  | EShortcut SelectLocationBar, SelectLocationBar
  | EShortcut QuitFirefox, QuitFirefox
  | EShortcut EditSelectAll, EditSelectAll
  | EShortcut EditCopy, EditCopy => true
  | _, _ => false
  end.

Definition is_app_finish (e : Event) : bool :=
  match e with EAppFinish _ => true | _ => false end.

Definition count (p : Event -> bool) (evs : list Event) : nat :=
  length (filter p evs).

(** The calls [click_auxiliary_window_control] can make to close a window. *)
Definition closing_event (e : Event) : bool :=
  match e with
  | EHover _ _ | EWait _ _ | EClick _ => true
  | _ => false
  end.

(** The calls [address_crash_reporter] can make. *)
Definition reporter_event (e : Event) : bool :=
  match e with
  | EExists _ _ | EClick _ | EType _ | EHover _ _ | EWait _ _ => true
  | EWaitVanish p _ => String.eqb (image_file p) "crash_sorry.png"
  | _ => false
  end.

(** The calls with which [get_pref_value] and [change_preference] bring the
    row of a preference into the clipboard, up to the clipboard read. *)
Definition about_config_lookup (pref_name : string) : list Event :=
  [ EShortcut NewTab; EShortcut SelectLocationBar; EPaste "about:config";
    EType (TKey ENTER); ESleep UI_DELAY; EType (TKey SPACE); ESleep UI_DELAY;
    EPaste pref_name; ESleep UI_DELAY_LONG; EType (TKey TAB);
    ESleep UI_DELAY_LONG; EShortcut EditSelectAll; EShortcut EditCopy ].

(** The keystrokes and the click with which [confirm_firefox_quit]
    re-attempts the quit. *)
Definition escalation : list Event :=
  [ EType (TKey ENTER); ESleep FX_DELAY; EType (TKey ESC); ESleep FX_DELAY;
    EClick NavBar.HOME_BUTTON; EShortcut QuitFirefox ].

Definition home_vanish : Event := EWaitVanish NavBar.HOME_BUTTON 10.

(** What [address_crash_reporter] does to a reporter it found, up to the
    wait for it to close. *)
Definition reporter_dismissal : list Event :=
  [ EExists reporter_pattern 2; EClick reporter_pattern;
    EType (TText crash_annotation); EClick (Pattern_ "quit_firefox_button.png") ].

Definition reporter_vanish : Event := EWaitVanish reporter_pattern 20.

(** A world in which no call raises. *)
Definition calm (w : World) : Prop := forall h e, fault w h e = None.

Definition raises (c : ExnClass) {R A} (s : Signal R A) : bool :=
  match s with
  | Raise e => ExnClass_eqb (exn_class e) c
  | _ => false
  end.

(** ** Some worlds *)

(** A world in which nothing raises, nothing is on screen and the
    clipboard is empty. *)
Definition still_world : World :=
  mkWorld (fun _ _ => None) (fun _ _ => false) (fun _ _ => None)
          (fun _ => EmptyString) (fun _ => (0, 0)%Z) LINUX (fun _ => false)
          (fun a b => a +++ "/" +++ b).

Definition with_fault (f : list Event -> Event -> option Exn) (w : World) : World :=
  mkWorld f (probe w) (located w) (clipboard w) (image_size w) (os w)
          (valid_json w) (path_join w).

Definition with_probe (p : list Event -> Pattern -> bool) (w : World) : World :=
  mkWorld (fault w) p (located w) (clipboard w) (image_size w) (os w)
          (valid_json w) (path_join w).

Definition with_located (l : list Event -> Pattern -> option Match) (w : World) : World :=
  mkWorld (fault w) (probe w) l (clipboard w) (image_size w) (os w)
          (valid_json w) (path_join w).

Definition with_clipboard (text : string) (w : World) : World :=
  mkWorld (fault w) (probe w) (located w) (fun _ => text) (image_size w) (os w)
          (valid_json w) (path_join w).

Definition not_found : Exn := mkExn FindError "pattern did not vanish".

(** Firefox never goes away: every [wait_vanish] on the home button
    raises [FindError]. *)
Definition stuck_world : World :=
  with_fault (fun _ e => if is_wait_vanish_of "NavBar.HOME_BUTTON" e
                         then Some not_found else None) still_world.

(** A crash reporter is on screen and does not close. *)
Definition reporter_world : World :=
  with_probe (fun _ _ => true)
    (with_fault (fun _ e => if is_wait_vanish_of "crash_sorry.png" e
                            then Some not_found else None) still_world).

(** The about:config row of a preference, with and without separators. *)
Definition row_world : World := with_clipboard "browser.test.pref;42;extra" still_world.
Definition bare_world : World := with_clipboard "browser.test.pref" still_world.

(** The hamburger menu is found at (1200, 40). *)
Definition menu_world : World :=
  with_located (fun _ _ => Some (mkMatch 1200 40 30 30)) still_world.

(** The RAW JSON button of about:telemetry never shows: every [wait] raises
    [FindError]. *)
Definition no_raw_json_world : World :=
  with_fault (fun _ e => match e with
                         | EWait _ _ => Some (mkExn FindError "raw_json.png not found")
                         | _ => None
                         end) still_world.

Definition sample_test : BaseTest :=
  mkBaseTest ["browser.tabs.warnOnClose;false"; "browser.cache.size;2048";
              "browser.startup.homepage;about:blank"] "/tmp/profile".

(** How a run ends, forgetting the value: the exception it raises, if any. *)
Definition outcome {R A} (s : Signal R A) : option Exn :=
  match s with
  | Raise e => Some e
  | _ => None
  end.

(** ** The preference file, as the interface describes it *)

(** A requested override [name;value]. *)
Definition entry (nv : string * string) : string := fst nv +++ ";" +++ snd nv.

(** A value that reads as a boolean or a number. *)
Definition literal (value : string) : bool :=
  String.eqb value "true" || String.eqb value "false" ||
  (negb (PyStr.is_empty value) && PyStr.all_chars PyStr.isdigit_char value).

(** The line of an override: literals bare, everything else quoted. *)
Definition user_pref_line (nv : string * string) : string :=
  if literal (snd nv) then user_pref_bare (fst nv) (snd nv)
  else user_pref_quoted (fst nv) (snd nv).

(** The command line [launch_firefox] is to build. *)
Definition firefox_command (path profile : string) (url : option string)
    (args : option (list string)) : list string :=
  [path; "-foreground"; "-no-remote"; "-profile"; profile]
  ++ match args with Some a => a | None => [] end
  ++ match url with Some u => ["-new-tab"; u] | None => [] end.

(** ** The lines of the preference file, character by character *)

(** What a line is to look like, written without any of the definitions
    the model of [write_profile_prefs] is built from: the quote is
    character 34, the line ends with character 10, and a number is a
    non-empty string of the ten characters below. *)
Definition digit_characters : list ascii :=
  ["0"; "1"; "2"; "3"; "4"; "5"; "6"; "7"; "8"; "9"]%char.

Definition only_digits (value : string) : Prop :=
  value <> EmptyString /\
  Forall (fun c => In c digit_characters) (list_ascii_of_string value).

(** A value the file shows without quotes. *)
Definition written_bare (value : string) : Prop :=
  value = "true" \/ value = "false" \/ only_digits value.

Definition is_digit_character (c : ascii) : bool :=
  existsb (Ascii.eqb c) digit_characters.

Definition reads_as_number (value : string) : bool :=
  match value with
  | EmptyString => false
  | String _ _ => forallb is_digit_character (list_ascii_of_string value)
  end.

Definition reads_as_boolean (value : string) : bool :=
  String.eqb value "true" || String.eqb value "false".

Definition double_quote : string := String "034"%char EmptyString.
Definition line_break : string := String "010"%char EmptyString.

(** [user_pref("name", value);] and a line break. *)
Definition bare_text (name value : string) : string :=
  "user_pref(" +++ double_quote +++ name +++ double_quote +++ ", "
  +++ value +++ ");" +++ line_break.

(** [user_pref("name", "value");] and a line break. *)
Definition quoted_text (name value : string) : string :=
  "user_pref(" +++ double_quote +++ name +++ double_quote +++ ", "
  +++ double_quote +++ value +++ double_quote +++ ");" +++ line_break.

Definition expected_line (nv : string * string) : string :=
  if reads_as_boolean (snd nv) || reads_as_number (snd nv)
  then bare_text (fst nv) (snd nv)
  else quoted_text (fst nv) (snd nv).

(** ** More helpers of general.py *)

(** [except APIHelperError] *)
Definition is_APIHelperError (e : Exn) : bool :=
  ExnClass_eqb (exn_class e) APIHelperError.

(** [confirm_firefox_launch(app)]; of [app] only [app.finish] is used. *)
Definition confirm_firefox_launch {R} : Py R unit :=
  def tt (
    try_except
      (wait (Pattern_ "iris_logo.png") 20)
      is_Exception
      (fun _ => app_finish 1)).

Definition no_active_window : Exn :=
  mkExn APIHelperError "No active window found, cannot navigate to page.".

Definition navigate {R} (url : string) : Py R unit :=
  def tt (
    try_except
      (select_location_bar ;;
       paste url ;;
       type (TKey ENTER))
      is_Exception
      (fun _ => raise no_active_window)).

Definition not_relaunched : Exn := mkExn APIHelperError "Firefox not relaunched.".
Definition still_around : Exn :=
  mkExn APIHelperError "Firefox still around - cannot restart.".

Definition restart_firefox {R} (path : string) (profile url : option string)
    (args : option (list string)) (image : option Pattern) : Py R unit :=
  def tt (
    quit_firefox ;;
    let home_pattern := NavBar.HOME_BUTTON in
    let check_pattern := match image with
                         | None => home_pattern
                         | Some image => image
                         end in
    try_except
      (wait_vanish home_pattern 10 ;;
       sleep SYSTEM_DELAY ;;
       launch_firefox path profile url args ;;
       found <- exists_ check_pattern 20 ;;
       if found then pass else raise not_relaunched)
      is_FindError
      (fun _ => raise still_around)).

Definition confirm_close_multiple_tabs {R} : Py R unit :=
  def tt (
    let close_all_tabs_button_pattern := Pattern_ "close_all_tabs_button.png" in
    try_except
      (wait close_all_tabs_button_pattern 5 ;;
       type (TKey ENTER))
      is_FindError
      (fun _ => pass)).

Definition click_cancel_button {R} : Py R unit :=
  def tt (
    let cancel_button_pattern := Pattern_ "cancel_button.png" in
    try_except
      (wait cancel_button_pattern 10 ;;
       click cancel_button_pattern)
      is_FindError
      (fun _ => raise (mkExn APIHelperError "Can't find the cancel button, aborting."))).

Definition close_customize_page {R} : Py R unit :=
  def tt (
    let customize_done_button_pattern := Pattern_ "customize_done_button.png" in
    try_except
      (wait customize_done_button_pattern 10 ;;
       click customize_done_button_pattern)
      is_FindError
      (fun _ => raise (mkExn APIHelperError
                         "Can't find the Done button in the page, aborting."))).

Definition wait_for_firefox_restart {R} : Py R unit :=
  def tt (
    try_except
      (let home_pattern := NavBar.HOME_BUTTON in
       wait_vanish home_pattern 10 ;;
       wait home_pattern 20)
      is_FindError
      (fun _ => raise (mkExn APIHelperError
                         "Firefox restart has not been performed, aborting."))).

Definition restore_firefox_focus {R} : Py R unit :=
  def tt (
    try_except
      (size <- get_image_size NavBar.HOME_BUTTON ;;
       let (w, h) := size in
       let horizontal_offset := (w * 2)%Z in
       let click_area := target_offset NavBar.HOME_BUTTON horizontal_offset 0 in
       click click_area)
      is_FindError
      (fun _ => raise (mkExn APIHelperError "Could not restore firefox focus."))).

Definition get_firefox_version_from_about_config {R} : Py R string :=
  fn (
    try_except
      (v <- get_pref_value "extensions.lastAppVersion" ;;
       return_ v)
      is_APIHelperError
      (fun _ => raise (mkExn APIHelperError
         "Could not retrieve firefox version information from about:config page."))).

Definition build_id_pref_1 : string := "browser.startup.homepage_override.buildID".
Definition build_id_pref_2 : string := "extensions.lastAppBuildId".

Definition no_build_id : Exn :=
  mkExn APIHelperError
    "Could not retrieve firefox build id information from about:config page.".

Definition get_firefox_build_id_from_about_config {R} : Py R string :=
  fn (
    let pref_1 := build_id_pref_1 in
    let pref_2 := build_id_pref_2 in
    try_except
      (v <- get_pref_value pref_1 ;;
       return_ v)
      is_APIHelperError
      (fun _ =>
         try_except
           (v <- get_pref_value pref_2 ;;
            return_ v)
           is_APIHelperError
           (fun _ => raise no_build_id))).

Definition get_firefox_channel_from_about_config {R} : Py R string :=
  fn (
    try_except
      (v <- get_pref_value "app.update.channel" ;;
       return_ v)
      is_APIHelperError
      (fun _ => raise (mkExn APIHelperError
         "Could not retrieve firefox channel information from about:config page."))).

(** ** create_firefox_args *)

(** [int(s)] on a byte string, base 10: surrounding whitespace, one
    optional sign, then at least one digit. *)
Module PyInt.

Definition digit_value (c : ascii) : Z := (Z.of_nat (nat_of_ascii c) - 48)%Z.

Fixpoint digits (acc : Z) (s : string) : option Z :=
  match s with
  | EmptyString => Some acc
  | String c s' =>
      if PyStr.isdigit_char c then digits (acc * 10 + digit_value c)%Z s' else None
  end.

Definition unsigned (s : string) : option Z :=
  match s with
  | EmptyString => None
  | String _ _ => digits 0 s
  end.

Definition int (s : string) : option Z :=
  match PyStr.strip s with
  | EmptyString => None
  | String c s' =>
      if Ascii.eqb c "-" then option_map Z.opp (unsigned s')
      else if Ascii.eqb c "+" then unsigned s'
      else unsigned (String c s')
  end.

End PyInt.

(** The attributes of a test case that [create_firefox_args] reads, and
    [maximize_window], which it writes. *)
Record TestCaseOptions := mkTestCaseOptions {
  private_browsing : bool;
  private_window : bool;
  window_size : option string;
  maximize_window : bool;
  profile_manager : bool;
  set_default_browser : bool;
  import_wizard : bool;
  search : option string;
  preferences : bool;
  devtools : bool;
  js_debugger : bool;
  js_console : bool;
  safe_mode : bool
}.

(** [test_case.maximize_window = b] *)
Definition set_maximize_window (b : bool) (t : TestCaseOptions) : TestCaseOptions :=
  mkTestCaseOptions (private_browsing t) (private_window t) (window_size t) b
    (profile_manager t) (set_default_browser t) (import_wizard t) (search t)
    (preferences t) (devtools t) (js_debugger t) (js_console t) (safe_mode t).

(** Truth value of an attribute that holds [None] or a string. *)
Definition truthy (s : option string) : bool :=
  match s with
  | Some (String _ _) => true
  | _ => false
  end.

Definition text_of (s : option string) : string :=
  match s with Some t => t | None => EmptyString end.

(** [if flag: args.append(name)] *)
Definition append_if (flag : bool) (name : string) (args : list string) : list string :=
  if flag then args ++ [name] else args.

Definition incorrect_window_size : Exn :=
  mkExn APIHelperError
    "Incorrect window size specified. Must specify width and height separated by lowercase x.".

(** The body of the [try] statement of [create_firefox_args]: the test
    case and the arguments as it leaves them, or [None] when it raises
    [ValueError] (from the unpacking or from [int]). *)
Definition window_size_args (test_case : TestCaseOptions) (args : list string)
    : TestCaseOptions * option (list string) :=
  if truthy (window_size test_case) then
    match PyStr.split "x"%char (text_of (window_size test_case)) with
    | [w; h] =>
        let args := (((args ++ ["-width"]) ++ [w]) ++ ["-height"]) ++ [h] in
        let test_case := set_maximize_window false test_case in
        match PyInt.int w with
        | Some _ => (test_case, Some args)
        | None => (test_case, None)
        end
    | _ => (test_case, None)
    end
  else (test_case, Some args).

(** [create_firefox_args(test_case)]: the test case as the call leaves it
    and the list returned or the exception raised. *)
Definition create_firefox_args (test_case : TestCaseOptions)
    : TestCaseOptions * (Exn + list string) :=
  let args := [] in
  let args := append_if (private_browsing test_case) "-private" args in
  let args := append_if (private_window test_case) "-private-window" args in
  match window_size_args test_case args with
  | (test_case, None) => (test_case, inl incorrect_window_size)
  | (test_case, Some args) =>
      let args := append_if (profile_manager test_case) "-ProfileManager" args in
      let args := append_if (set_default_browser test_case) "-setDefaultBrowser" args in
      let args := append_if (import_wizard test_case) "-migration" args in
      let args := if truthy (search test_case)
                  then (args ++ ["-search"]) ++ [text_of (search test_case)]
                  else args in
      let args := append_if (preferences test_case) "-preferences" args in
      let args := append_if (devtools test_case) "-devtools" args in
      let args := append_if (js_debugger test_case) "-jsdebugger" args in
      let args := append_if (js_console test_case) "-jsconsole" args in
      let args := append_if (safe_mode test_case) "-safe-mode" args in
      (test_case, inr args)
  end.

(** ** Build information *)

(** [needle in hay] on strings. *)
Fixpoint contains (needle hay : string) : bool :=
  String.prefix needle hay ||
  match hay with
  | EmptyString => false
  | String _ hay' => contains needle hay'
  end.

Section Mozversion.

(** [mozversion.get_version(binary=...)]: the dictionary it returns, as a
    lookup by key; the outer [None] when the call raises. *)
Variable get_version : string -> option (string -> option string).

Definition get_firefox_info (build_path : string) : option (string -> option string) :=
  get_version build_path.

(** [d[key]]; [None] stands for the [KeyError]. *)
Definition item (d : option (string -> option string)) (key : string) : option string :=
  match d with
  | Some d => d key
  | None => None
  end.

Definition get_firefox_version (build_path : string) : option string :=
  item (get_firefox_info build_path) "application_version".

Definition get_firefox_build_id (build_path : string) : option string :=
  item (get_firefox_info build_path) "platform_buildid".

Definition get_firefox_channel (build_path : string) : option string :=
  match item (get_firefox_info build_path) "application_repository" with
  | None => None
  | Some fx_channel =>
      Some (if contains "beta" fx_channel then "beta"
            else if contains "release" fx_channel then "release"
            else if contains "esr" fx_channel then "esr"
            else "nightly")
  end.

End Mozversion.

(** ** More trace readers and worlds *)

Definition is_popen (e : Event) : bool :=
  match e with EPopen _ => true | _ => false end.

Definition is_paste_of (text : string) (e : Event) : bool :=
  match e with
  | EPaste t => String.eqb t text
  | _ => false
  end.

(** The calls of [about_config_lookup] that can raise, and [close_tab]. *)
Definition lookup_calls (pref_name : string) : list Event :=
  [ EShortcut NewTab; EShortcut SelectLocationBar; EPaste "about:config";
    EType (TKey ENTER); EType (TKey SPACE); EPaste pref_name; EType (TKey TAB);
    EShortcut CloseTab ].

(** The clipboard cannot be read. *)
Definition busy_world : World :=
  with_fault (fun _ e => match e with
                         | EGetClipboard => Some (mkExn OSError "clipboard busy")
                         | _ => None
                         end) still_world.

(** A two-field row with blanks around the value. *)
Definition padded_world : World :=
  with_clipboard "browser.test.pref;  42  " still_world.

(** about:config shows no row for the first build id preference and one
    for the second. *)
Definition build_id_world : World :=
  mkWorld (fun _ _ => None) (fun _ _ => false) (fun _ _ => None)
          (fun h => if existsb (is_paste_of build_id_pref_2) h
                    then "extensions.lastAppBuildId;20180905100105;default"
                    else EmptyString)
          (fun _ => (0, 0)%Z) LINUX (fun _ => false)
          (fun a b => a +++ "/" +++ b).

(** The preference dialog never opens: waiting for its icon raises
    [FindError]. *)
Definition no_dialog_world : World :=
  with_fault (fun _ e => match e with
                         | EWait _ _ => Some (mkExn FindError "preference_dialog_icon.png")
                         | _ => None
                         end) row_world.


(** Everything that is probed for is there. *)
Definition present_world : World := with_probe (fun _ _ => true) still_world.

Definition mac_world : World :=
  mkWorld (fun _ _ => None) (fun _ _ => false) (fun _ _ => None)
          (fun _ => EmptyString) (fun _ => (0, 0)%Z) MAC (fun _ => false)
          (fun a b => a +++ "/" +++ b).

(** No pattern is ever found by [wait]. *)
Definition blind_world : World :=
  with_fault (fun _ e => match e with
                         | EWait _ _ => Some (mkExn FindError "pattern not found")
                         | _ => None
                         end) still_world.

(** The raw data of about:support and about:telemetry is valid JSON. *)
Definition json_world : World :=
  mkWorld (fun _ _ => None) (fun _ _ => false) (fun _ _ => None)
          (fun _ => "{}") (fun _ => (0, 0)%Z) LINUX (fun _ => true)
          (fun a b => a +++ "/" +++ b).

Definition broken_test : BaseTest :=
  mkBaseTest ["browser.tabs.warnOnClose;false"; "browser.cache.size";
              "browser.startup.homepage;about:blank"] "/tmp/profile".

Definition plain_options : TestCaseOptions :=
  mkTestCaseOptions false false None true false false false None
                    false false false false false.

Definition sized_options (size : string) : TestCaseOptions :=
  mkTestCaseOptions true false (Some size) true false false false None
                    false true false false false.

(** The build information of an ESR build. *)
Definition esr_build (build_path : string) : option (string -> option string) :=
  Some (fun key =>
          if String.eqb key "application_repository"
          then Some "https://hg.mozilla.org/releases/mozilla-esr60"
          else None).

(** The second field of the row that a lookup started after [before]
    brings into the clipboard. *)
Definition field_read (w : World) (before : list Event) (pref_name : string)
    : option string :=
  nth_error (PyStr.split PyStr.semicolon
               (PyStr.strip (clipboard w (before ++ about_config_lookup pref_name)))) 1.

(** * Properties *)

(** ** Splitting and stripping *)

Section Strings.
Import PyStr.

Lemma split_free (sep : ascii) (a : string) :
  free_of sep a = true -> split sep a = [a].
Proof.
  induction a as [|c a IH]; simpl; intros H; [reflexivity|].
  apply andb_prop in H as [Hc Ha].
  apply negb_true_iff in Hc. rewrite Hc, (IH Ha). reflexivity.
Qed.

Lemma split_app (sep : ascii) (a r : string) :
  free_of sep a = true ->
  split sep (a +++ String sep r) = a :: split sep r.
Proof.
  induction a as [|c a IH]; simpl; intros H.
  - rewrite Ascii.eqb_refl. reflexivity.
  - apply andb_prop in H as [Hc Ha].
    apply negb_true_iff in Hc. rewrite Hc, (IH Ha). reflexivity.
Qed.

Lemma lstrip_app (a r : string) (c : ascii) :
  isspace c = false ->
  lstrip (a +++ String c r) = lstrip a +++ String c r.
Proof.
  intros Hc. induction a as [|x a IH]; simpl.
  - rewrite Hc. reflexivity.
  - destruct (isspace x); [exact IH | reflexivity].
Qed.

Lemma rstrip_app (a r : string) (c : ascii) :
  isspace c = false ->
  rstrip (a +++ String c r) = a +++ String c (rstrip r).
Proof.
  intros Hc. induction a as [|x a IH]; simpl.
  - rewrite Hc. reflexivity.
  - rewrite IH. destruct a; simpl; rewrite andb_false_r; reflexivity.
Qed.

Lemma free_of_lstrip (sep : ascii) (a : string) :
  free_of sep a = true -> free_of sep (lstrip a) = true.
Proof.
  induction a as [|x a IH]; simpl; intros H; [reflexivity|].
  destruct (isspace x); [|exact H].
  apply andb_prop in H as [_ Ha]. exact (IH Ha).
Qed.

Lemma free_of_rstrip (sep : ascii) (a : string) :
  free_of sep a = true -> free_of sep (rstrip a) = true.
Proof.
  induction a as [|x a IH]; simpl; intros H; [reflexivity|].
  apply andb_prop in H as [Hx Ha].
  destruct (isspace x && is_empty (rstrip a)); [reflexivity|].
  simpl. apply andb_true_intro. split; [exact Hx | exact (IH Ha)].
Qed.

Lemma free_of_strip (sep : ascii) (a : string) :
  free_of sep a = true -> free_of sep (strip a) = true.
Proof. intros H. apply free_of_rstrip, free_of_lstrip, H. Qed.

Lemma append_assoc (a b c : string) : (a +++ b) +++ c = a +++ (b +++ c).
Proof. induction a as [|x a IH]; simpl; [reflexivity | now rewrite IH]. Qed.

(** The second field of a stripped three-field row is the row's second
    field: stripping only touches the outer ends. *)
Lemma second_field (name value extra : string) :
  free_of semicolon name = true ->
  free_of semicolon value = true ->
  nth_error (split semicolon (strip (name +++ ";" +++ value +++ ";" +++ extra))) 1
  = Some value.
Proof.
  intros Hn Hv. unfold strip.
  change (name +++ ";" +++ value +++ ";" +++ extra)
    with (name +++ String semicolon (value +++ String semicolon extra)).
  rewrite lstrip_app by reflexivity.
  replace (lstrip name +++ String semicolon (value +++ String semicolon extra))
    with ((lstrip name +++ String semicolon value) +++ String semicolon extra)
    by (rewrite append_assoc; reflexivity).
  rewrite rstrip_app by reflexivity.
  rewrite append_assoc. simpl.
  rewrite split_app by (apply free_of_lstrip, Hn).
  rewrite split_app by exact Hv.
  reflexivity.
Qed.

(** Without a separator there is no second field. *)
Lemma no_second_field (text : string) :
  free_of semicolon text = true ->
  nth_error (split semicolon (strip text)) 1 = None.
Proof.
  intros H. rewrite split_free by (apply free_of_strip, H). reflexivity.
Qed.

End Strings.

(** ** Running the flows *)

Ltac unfold_py :=
  cbv beta delta
    [ret pass return_ raise bind def fn try_except try_except_else try_finally
     call wait wait_vanish click hover type paste key_down key_up
     new_tab close_tab select_location_bar quit_firefox edit_select_all
     edit_copy app_finish Popen sleep exists_ find get_clipboard get_os
     get_image_size json_loads index local if_os os_path_join
     events result].

Ltac norm_history :=
  repeat rewrite <- app_assoc; rewrite ?app_nil_r; cbn [app].

Ltac run_py :=
  unfold_py;
  cbn -[String.append PyStr.split PyStr.strip nth_error count
        address_crash_reporter click_auxiliary_window_control];
  norm_history.

(** One call answered from what is known about the world. *)
Ltac answer :=
  match goal with
  | H : calm ?w |- context [fault ?w ?h ?e] => rewrite (H h e)
  | H : fault ?w ?h ?e = _ |- context [fault ?w ?h ?e] => rewrite H
  | H : probe ?w ?h ?p = _ |- context [probe ?w ?h ?p] => rewrite H
  | H : located ?w ?h ?p = _ |- context [located ?w ?h ?p] => rewrite H
  | H : clipboard ?w ?h = _ |- context [clipboard ?w ?h] => rewrite H
  end.

Ltac run_all := run_py; repeat (answer; run_py).

(** One case distinction on an answer the world is free to give. *)
Ltac branch :=
  match goal with
  | |- context [match fault ?w ?h ?e with _ => _ end] => destruct (fault w h e) eqn:?
  | |- context [if is_FindError ?x then _ else _] => destruct (is_FindError x) eqn:?
  | |- context [if is_Exception ?x then _ else _] => destruct (is_Exception x) eqn:?
  | |- context [if is_FindError_or_ValueError ?x then _ else _] =>
      destruct (is_FindError_or_ValueError x) eqn:?
  | |- context [if probe ?w ?h ?p then _ else _] => destruct (probe w h p) eqn:?
  | H : os ?w = _ |- context [os ?w] => rewrite H
  | |- context [Platform_eqb (os ?w) _] => destruct (os w) eqn:?
  | |- context [if valid_json ?w ?t then _ else _] => destruct (valid_json w t) eqn:?
  | |- context [match located ?w ?h ?p with _ => _ end] => destruct (located w h p) eqn:?
  end.

Ltac all_branches := run_py; repeat (branch; run_py).

(** *** launch_firefox *)

Lemma fold_append {A} (xs acc : list A) :
  fold_left (fun cmd arg => cmd ++ [arg]) xs acc = acc ++ xs.
Proof.
  revert acc. induction xs as [|x xs IH]; intros acc; simpl.
  - now rewrite app_nil_r.
  - rewrite IH, <- app_assoc. reflexivity.
Qed.

(** C10. Without a profile [launch_firefox] raises [ValueError] and starts
    no process.  With one, the process it starts is given the command line
    path, -foreground, -no-remote, -profile, profile, then the extra
    arguments in order, then -new-tab and the url when there is a url; and
    once the process is started that list is returned. *)
Theorem launch_firefox_command (R : Type) (w : World) (h : list Event)
    (path : string) (url : option string) (args : option (list string)) :
  launch_firefox (R:=R) path None url args w h
    = ([], Raise (mkExn ValueError EmptyString)) /\
  forall profile,
    let cmd := firefox_command path profile url args in
    events (launch_firefox (R:=R) path (Some profile) url args w h) = [EPopen cmd] /\
    (fault w h (EPopen cmd) = None ->
     result (launch_firefox (R:=R) path (Some profile) url args w h) = Next cmd).
Proof.
  split; [reflexivity|].
  intros profile cmd.
  assert (E : (let c := fold_left (fun cmd arg => cmd ++ [arg])
                   match args with Some a => a | None => [] end
                   [path; "-foreground"; "-no-remote"; "-profile"; profile] in
               match url with Some u => (c ++ ["-new-tab"]) ++ [u] | None => c end)
              = cmd).
  { subst cmd. unfold firefox_command. cbv zeta. rewrite fold_append.
    destruct url; simpl; [|now rewrite app_nil_r].
    rewrite <- !app_assoc. reflexivity. }
  unfold launch_firefox. cbv zeta in E |- *. rewrite E. clear E. clearbody cmd.
  split.
  - run_py. destruct (fault w h (EPopen cmd)); reflexivity.
  - intros Hok. run_all. reflexivity.
Qed.

Lemma launch_firefox_command_witness :
  result (launch_firefox (R:=unit) "/usr/bin/firefox" (Some "test-profile")
            (Some "about:blank") (Some ["-private"; "-devtools"]) still_world [])
  = Next ["/usr/bin/firefox"; "-foreground"; "-no-remote"; "-profile";
          "test-profile"; "-private"; "-devtools"; "-new-tab"; "about:blank"].
Proof.
  destruct (launch_firefox_command unit still_world [] "/usr/bin/firefox"
              (Some "about:blank") (Some ["-private"; "-devtools"])) as [_ H].
  destruct (H "test-profile") as [_ H'].
  apply H'. reflexivity.
Defined.

(** *** Reading a preference *)

(** What [retrieve_value] does in a calm world, by the second field of the
    stripped clipboard text. *)
Lemma retrieve_value_calm (R : Type) (w : World) (h : list Event) :
  calm w ->
  retrieve_value (R:=R) w h
  = ([EShortcut EditSelectAll; EShortcut EditCopy; EGetClipboard],
     match nth_error (PyStr.split PyStr.semicolon
                        (PyStr.strip (clipboard w (h ++ [EShortcut EditSelectAll;
                                                         EShortcut EditCopy])))) 1 with
     | Some field => Next field
     | None => Raise (mkExn APIHelperError
                        "Failed to retrieve preference value. list index out of range")
     end).
Proof.
  intros Hc. unfold retrieve_value, copy_to_clipboard. run_all.
  destruct (nth_error _ 1); reflexivity.
Qed.

(** What [change_preference] does in a calm world. *)
Lemma change_preference_calm (R : Type) (w : World) (h : list Event)
    (pref_name value : string) :
  calm w ->
  change_preference (R:=R) pref_name value w h
  = match nth_error (PyStr.split PyStr.semicolon
                       (PyStr.strip (clipboard w (h ++ about_config_lookup pref_name)))) 1 with
    | Some field =>
        (about_config_lookup pref_name
         ++ EGetClipboard
            :: (if String.eqb field value then []
                else [EType (TKey ENTER);
                      EWait (Pattern_ "preference_dialog_icon.png") 3;
                      EPaste value; EType (TKey ENTER); EShortcut CloseTab]),
         Next tt)
    | None =>
        (about_config_lookup pref_name ++ [EGetClipboard],
         Raise (mkExn APIHelperError
                  ("Could not set value: " +++ value +++
                   " to preference: " +++ pref_name)))
    end.
Proof.
  intros Hc. unfold about_config_lookup.
  unfold change_preference, retrieve_value, copy_to_clipboard. run_all.
  destruct (nth_error _ 1) as [field|]; run_py; [|reflexivity].
  destruct (String.eqb field value); run_all; reflexivity.
Qed.

(** C2. When the clipboard holds [name;value;extra], [get_pref_value]
    returns [value]; and [change_preference] compares the requested value
    with that same field: it stops after the read when they are equal and
    writes the requested value otherwise. *)
Theorem pref_reader_returns_second_field (R : Type) (w : World) (h : list Event)
    (pref_name name value extra : string) :
  calm w ->
  PyStr.free_of PyStr.semicolon name = true ->
  PyStr.free_of PyStr.semicolon value = true ->
  clipboard w (h ++ about_config_lookup pref_name)
    = name +++ ";" +++ value +++ ";" +++ extra ->
  get_pref_value (R:=R) pref_name w h
    = (about_config_lookup pref_name ++ [EGetClipboard; EShortcut CloseTab],
       Next value) /\
  forall requested,
    events (change_preference (R:=R) pref_name requested w h)
    = about_config_lookup pref_name
      ++ EGetClipboard
         :: (if String.eqb value requested then []
             else [EType (TKey ENTER);
                   EWait (Pattern_ "preference_dialog_icon.png") 3;
                   EPaste requested; EType (TKey ENTER); EShortcut CloseTab]).
Proof.
  intros Hc Hn Hv Hclip. split.
  - unfold about_config_lookup in *.
    unfold get_pref_value, retrieve_value, copy_to_clipboard. run_all.
    rewrite second_field by assumption. run_all. reflexivity.
  - intros requested. rewrite change_preference_calm by exact Hc.
    rewrite Hclip, second_field by assumption. reflexivity.
Qed.

Lemma pref_reader_returns_second_field_witness :
  result (get_pref_value (R:=unit) "browser.test.pref" row_world []) = Next "42".
Proof.
  destruct (pref_reader_returns_second_field unit row_world [] "browser.test.pref"
              "browser.test.pref" "42" "extra") as [H _].
  - intros h e. reflexivity.
  - reflexivity.
  - reflexivity.
  - reflexivity.
  - rewrite H. reflexivity.
Defined.

(** C3, as the code has it. When the clipboard text holds no semicolon,
    [get_pref_value] raises [APIHelperError], the error of every helper,
    with the index error's message appended; no [IndexError] leaves it. *)
Theorem get_pref_value_without_separator (R : Type) (w : World) (h : list Event)
    (pref_name : string) :
  calm w ->
  PyStr.free_of PyStr.semicolon (clipboard w (h ++ about_config_lookup pref_name)) = true ->
  get_pref_value (R:=R) pref_name w h
  = (about_config_lookup pref_name ++ [EGetClipboard],
     Raise (mkExn APIHelperError
              "Failed to retrieve preference value. list index out of range")) /\
  raises IndexError (result (get_pref_value (R:=R) pref_name w h)) = false.
Proof.
  intros Hc Hfree. unfold about_config_lookup in *.
  assert (E : get_pref_value (R:=R) pref_name w h
              = (about_config_lookup pref_name ++ [EGetClipboard],
                 Raise (mkExn APIHelperError
                          "Failed to retrieve preference value. list index out of range"))).
  { unfold get_pref_value, retrieve_value, copy_to_clipboard. run_all.
    rewrite no_second_field by exact Hfree. reflexivity. }
  split; [exact E | rewrite E; reflexivity].
Qed.

Lemma get_pref_value_without_separator_witness :
  outcome (result (get_pref_value (R:=unit) "browser.test.pref" bare_world []))
  = Some (mkExn APIHelperError
            "Failed to retrieve preference value. list index out of range").
Proof.
  destruct (get_pref_value_without_separator unit bare_world [] "browser.test.pref")
    as [H _].
  - intros h e. reflexivity.
  - reflexivity.
  - rewrite H. reflexivity.
Defined.

(** C3, as stated, fails: on the clipboard text [browser.test.pref], which
    holds no semicolon, what [get_pref_value] raises is not a
    [ProtocolFormatError]. *)
Lemma get_pref_value_no_ProtocolFormatError :
  PyStr.free_of PyStr.semicolon (clipboard bare_world (about_config_lookup "browser.test.pref"))
    = true /\
  raises ProtocolFormatError
    (result (get_pref_value (R:=unit) "browser.test.pref" bare_world [])) = false.
Proof. split; reflexivity. Qed.

(** C8. When the second field read back equals the requested value,
    [change_preference] returns right after the clipboard read: the read is
    the last event, nothing is typed, pasted or clicked after it. *)
Theorem change_preference_already_set (R : Type) (w : World) (h : list Event)
    (pref_name value : string) :
  calm w ->
  nth_error (PyStr.split PyStr.semicolon
               (PyStr.strip (clipboard w (h ++ about_config_lookup pref_name)))) 1
    = Some value ->
  change_preference (R:=R) pref_name value w h
  = (about_config_lookup pref_name ++ [EGetClipboard], Next tt).
Proof.
  intros Hc Hfield. rewrite change_preference_calm by exact Hc.
  rewrite Hfield, String.eqb_refl. reflexivity.
Qed.

Lemma change_preference_already_set_witness :
  change_preference (R:=unit) "browser.test.pref" "42" row_world []
  = (about_config_lookup "browser.test.pref" ++ [EGetClipboard], Next tt).
Proof.
  apply (change_preference_already_set unit row_world [] "browser.test.pref" "42").
  - intros h e. reflexivity.
  - reflexivity.
Defined.

(** *** Tabs *)

(** On a clipboard text without semicolon [get_pref_value] has opened a
    tab and raises without closing it. *)
Lemma get_pref_value_leaks_tab (R : Type) (w : World) (h : list Event)
    (pref_name : string) :
  calm w ->
  PyStr.free_of PyStr.semicolon (clipboard w (h ++ about_config_lookup pref_name)) = true ->
  count (is_shortcut NewTab) (events (get_pref_value (R:=R) pref_name w h)) = 1 /\
  count (is_shortcut CloseTab) (events (get_pref_value (R:=R) pref_name w h)) = 0.
Proof.
  intros Hc Hfree. unfold about_config_lookup in *.
  unfold get_pref_value, retrieve_value, copy_to_clipboard. run_all.
  rewrite no_second_field by exact Hfree. split; reflexivity.
Qed.

(** [get_support_info], once its page is open, closes the tab however the
    copy and the decoding end. *)
Lemma get_support_info_closes_tab (R : Type) (w : World) (h : list Event) :
  (forall h' e,
     In e [EShortcut NewTab; EShortcut SelectLocationBar; EPaste "about:support";
           EType (TKey ENTER)] -> fault w h' e = None) ->
  count (is_shortcut NewTab) (events (get_support_info (R:=R) w h)) = 1 /\
  count (is_shortcut CloseTab) (events (get_support_info (R:=R) w h)) = 1.
Proof.
  intros Hsetup. unfold get_support_info. run_py.
  repeat (rewrite Hsetup by (simpl; tauto); run_py).
  all_branches; split; reflexivity.
Qed.

(** C4 fails on the code. Three runs that open a tab and leave it open:
    [get_pref_value] on a clipboard text without semicolon, which raises;
    [change_preference] finding the preference already set, which returns;
    [get_telemetry_info] not finding the RAW JSON button, which raises. *)
Theorem tab_left_open :
  let parse_failure := get_pref_value (R:=unit) "browser.test.pref" bare_world [] in
  let already_set := change_preference (R:=unit) "browser.test.pref" "42" row_world [] in
  let no_button := get_telemetry_info (R:=unit) no_raw_json_world [] in
  (count (is_shortcut NewTab) (events parse_failure) = 1 /\
   count (is_shortcut CloseTab) (events parse_failure) = 0 /\
   raises APIHelperError (result parse_failure) = true) /\
  (count (is_shortcut NewTab) (events already_set) = 1 /\
   count (is_shortcut CloseTab) (events already_set) = 0 /\
   result already_set = Next tt) /\
  (count (is_shortcut NewTab) (events no_button) = 1 /\
   count (is_shortcut CloseTab) (events no_button) = 0 /\
   raises APIHelperError (result no_button) = true).
Proof. repeat split; reflexivity. Qed.

(** *** Regions *)

(** C7. Whatever region [create_region_from_image] returns is 285 wide and
    655 high; and when the anchor is found at a match [m] the region
    returned is that box with its origin at [(m.x - 285, m.y)], so that
    only the origin follows the match. *)
Theorem create_region_from_image_fixed_size (R : Type) (w : World) (h : list Event)
    (image : Pattern) :
  (forall region,
     result (create_region_from_image (R:=R) image w h) = Next region ->
     r_width region = 285%Z /\ r_height region = 655%Z) /\
  (forall m,
     fault w h (EFind image) = None ->
     located w h image = Some m ->
     create_region_from_image (R:=R) image w h
     = ([EFind image], Next (mkRegion (m_x m - 285) (m_y m) 285 655))).
Proof.
  split.
  - intros region. unfold create_region_from_image.
    all_branches; intros E; inversion E; subst; split; reflexivity.
  - intros m Hfound Hm. unfold create_region_from_image. run_all. reflexivity.
Qed.

Lemma create_region_from_image_fixed_size_witness :
  result (create_region_from_image (R:=unit) NavBar.HAMBURGER_MENU menu_world [])
  = Next (mkRegion 915 40 285 655).
Proof.
  destruct (create_region_from_image_fixed_size unit menu_world []
              NavBar.HAMBURGER_MENU) as [_ H].
  rewrite (H (mkMatch 1200 40 30 30)); reflexivity.
Defined.

(** *** The crash reporter *)

Lemma count_app (p : Event -> bool) (xs ys : list Event) :
  count p (xs ++ ys) = count p xs + count p ys.
Proof. unfold count. rewrite filter_app, length_app. reflexivity. Qed.

Lemma count_cons (p : Event -> bool) (e : Event) (evs : list Event) :
  count p (e :: evs) = (if p e then 1 else 0) + count p evs.
Proof. unfold count. simpl. destruct (p e); reflexivity. Qed.

Lemma count_none (p q : Event -> bool) (evs : list Event) :
  forallb q evs = true ->
  (forall e, q e = true -> p e = false) ->
  count p evs = 0.
Proof.
  intros Hall Hpq. unfold count.
  induction evs as [|e evs IH]; simpl in *; [reflexivity|].
  apply andb_prop in Hall as [He Hevs].
  rewrite (Hpq e He). exact (IH Hevs).
Qed.

Lemma click_auxiliary_window_control_close_events (R : Type) (w : World)
    (h : list Event) :
  forallb closing_event
    (events (click_auxiliary_window_control (R:=R) "close" w h)) = true.
Proof.
  unfold click_auxiliary_window_control. all_branches; reflexivity.
Qed.

(** In a calm world the close control is located and clicked once. *)
Lemma click_auxiliary_window_control_close_calm (R : Type) (w : World)
    (h : list Event) :
  calm w ->
  click_auxiliary_window_control (R:=R) "close" w h
  = (match os w with
     | MAC =>
         [EHover (Location 1 300) None;
          EWait (similar (Pattern_ "unhovered_red_control.png") (9 # 10)%Q) 5;
          EHover (OnPattern (similar (Pattern_ "unhovered_red_control.png") (9 # 10)%Q))
                 (Some (3 # 10)%Q);
          EClick (Pattern_ "hovered_red_button.png")]
     | LINUX =>
         [EHover (Location 1 300) None; EHover (Location 80 0) None;
          EWait (Pattern_ "auxiliary_window_close_button.png") 5;
          EClick (Pattern_ "auxiliary_window_close_button.png")]
     | WINDOWS =>
         [EHover (Location 1 300) None;
          EWait (Pattern_ "auxiliary_window_close_button.png") 5;
          EClick (Pattern_ "auxiliary_window_close_button.png")]
     end, Next tt).
Proof.
  intros Hc. unfold click_auxiliary_window_control.
  destruct (os w) eqn:Hos; run_py; rewrite ?Hos; run_all; rewrite ?Hos; run_all;
    reflexivity.
Qed.

(** C5. When the probe for the reporter answers false,
    [address_crash_reporter] returns with the probe as its only call: no
    click, no keystroke. *)
Theorem address_crash_reporter_absent (R : Type) (w : World) (h : list Event) :
  probe w h reporter_pattern = false ->
  address_crash_reporter (R:=R) w h = ([EExists reporter_pattern 2], Next tt) /\
  count is_click (events (address_crash_reporter (R:=R) w h)) = 0 /\
  count is_keystroke (events (address_crash_reporter (R:=R) w h)) = 0.
Proof.
  intros Habsent.
  assert (E : address_crash_reporter (R:=R) w h = ([EExists reporter_pattern 2], Next tt)).
  { unfold address_crash_reporter. run_all. reflexivity. }
  rewrite E. repeat split; reflexivity.
Qed.

Lemma address_crash_reporter_absent_witness :
  address_crash_reporter (R:=unit) still_world [] = ([EExists reporter_pattern 2], Next tt).
Proof.
  destruct (address_crash_reporter_absent unit still_world []) as [H _].
  - reflexivity.
  - exact H.
Defined.

(** C6. In every run [address_crash_reporter] waits for the reporter to
    vanish at most once.  When the reporter is present and its dismissal
    goes through, the run is: probe, click on the reporter, the annotation,
    click on the quit button, one wait of 20 seconds for the reporter to
    vanish.  If it vanished the flow returns.  If the wait raises
    [FindError], [click_auxiliary_window_control('close')] runs once, makes
    no further wait for the reporter, and the flow ends as that call ends. *)
Theorem address_crash_reporter_present (R : Type) (w : World) (h : list Event) :
  count (is_wait_vanish_of "crash_sorry.png")
    (events (address_crash_reporter (R:=R) w h)) <= 1 /\
  (probe w h reporter_pattern = true ->
   (forall h' e, In e (tl reporter_dismissal) -> fault w h' e = None) ->
   (fault w (h ++ reporter_dismissal) reporter_vanish = None ->
    address_crash_reporter (R:=R) w h
    = (reporter_dismissal ++ [reporter_vanish], Next tt)) /\
   (forall e,
      fault w (h ++ reporter_dismissal) reporter_vanish = Some e ->
      is_FindError e = true ->
      let fallback :=
        click_auxiliary_window_control (R:=unit) "close" w
          (h ++ reporter_dismissal ++ [reporter_vanish]) in
      events (address_crash_reporter (R:=R) w h)
        = reporter_dismissal ++ reporter_vanish :: events fallback /\
      outcome (result (address_crash_reporter (R:=R) w h)) = outcome (result fallback) /\
      count (is_wait_vanish_of "crash_sorry.png") (events fallback) = 0)).
Proof.
  split.
  - unfold address_crash_reporter. run_py.
    repeat (branch; run_py); try (cbv; lia).
    destruct (click_auxiliary_window_control "close" w _) as [ev s] eqn:E.
    pose proof (click_auxiliary_window_control_close_events unit w
                  (h ++ [EExists reporter_pattern 2; EClick reporter_pattern;
                         EType (TText crash_annotation);
                         EClick (Pattern_ "quit_firefox_button.png");
                         EWaitVanish reporter_pattern 20])) as Hev.
    rewrite E in Hev. cbn [events fst] in Hev.
    cbn [fst]. rewrite !count_cons.
    rewrite (count_none _ closing_event ev Hev)
      by (intros [] ?; try discriminate; reflexivity).
    cbv. lia.
  - intros Hpresent Hinputs.
    unfold reporter_dismissal, reporter_vanish in *. split.
    + intros Hgone. unfold address_crash_reporter. run_py.
      rewrite Hpresent. run_py.
      repeat (rewrite Hinputs by (simpl; tauto); run_py).
      rewrite Hgone. run_py. reflexivity.
    + intros e Hstays He. cbv zeta.
      unfold address_crash_reporter. run_py.
      rewrite Hpresent. run_py.
      repeat (rewrite Hinputs by (simpl; tauto); run_py).
      rewrite Hstays. run_py. rewrite He. run_py.
      pose proof (click_auxiliary_window_control_close_events unit w
                    (h ++ [EExists reporter_pattern 2; EClick reporter_pattern;
                           EType (TText crash_annotation);
                           EClick (Pattern_ "quit_firefox_button.png");
                           EWaitVanish reporter_pattern 20])) as Hev.
      destruct (click_auxiliary_window_control "close" w _) as [ev s].
      cbn [events fst] in Hev.
      split; [|split].
      * destruct s; reflexivity.
      * destruct s; reflexivity.
      * cbn [fst]. apply (count_none _ closing_event ev Hev).
        intros [] ?; try discriminate; reflexivity.
Qed.

Lemma address_crash_reporter_present_witness :
  events (address_crash_reporter (R:=unit) reporter_world [])
  = reporter_dismissal
    ++ [reporter_vanish;
        EHover (Location 1 300) None; EHover (Location 80 0) None;
        EWait (Pattern_ "auxiliary_window_close_button.png") 5;
        EClick (Pattern_ "auxiliary_window_close_button.png")].
Proof.
  destruct (address_crash_reporter_present unit reporter_world []) as [_ H].
  destruct H as [_ H].
  - reflexivity.
  - intros h' e He. simpl in He.
    repeat (destruct He as [<-|He]; [reflexivity|]). contradiction.
  - destruct (H not_found eq_refl eq_refl) as [H1 _].
    rewrite H1. reflexivity.
Defined.

(** *** Quitting *)

Lemma forallb_weaken (p q : Event -> bool) (evs : list Event) :
  (forall e, p e = true -> q e = true) ->
  forallb p evs = true -> forallb q evs = true.
Proof.
  intros Hpq. induction evs as [|e evs IH]; simpl; [reflexivity|].
  intros H. apply andb_prop in H as [He Hevs].
  rewrite (Hpq e He), (IH Hevs). reflexivity.
Qed.

Lemma address_crash_reporter_events (R : Type) (w : World) (h : list Event) :
  forallb reporter_event (events (address_crash_reporter (R:=R) w h)) = true.
Proof.
  unfold address_crash_reporter. run_py.
  repeat (branch; run_py); try reflexivity.
  pose proof (click_auxiliary_window_control_close_events unit w
                (h ++ [EExists reporter_pattern 2; EClick reporter_pattern;
                       EType (TText crash_annotation);
                       EClick (Pattern_ "quit_firefox_button.png");
                       EWaitVanish reporter_pattern 20])) as Hev.
  destruct (click_auxiliary_window_control "close" w _) as [ev s].
  cbn [events fst] in Hev |- *. cbn [forallb reporter_event]. cbn.
  apply (forallb_weaken closing_event); [|exact Hev].
  intros [] ?; try discriminate; reflexivity.
Qed.

Lemma reporter_event_not_quit (e : Event) :
  reporter_event e = true -> is_shortcut QuitFirefox e = false.
Proof. destruct e; try discriminate; reflexivity. Qed.

Lemma reporter_event_not_finish (e : Event) :
  reporter_event e = true -> is_app_finish e = false.
Proof. destruct e; try discriminate; reflexivity. Qed.

Lemma reporter_event_not_home (e : Event) :
  reporter_event e = true -> is_wait_vanish_of "NavBar.HOME_BUTTON" e = false.
Proof.
  destruct e; try discriminate; try reflexivity.
  simpl. intros H. apply String.eqb_eq in H. rewrite H. reflexivity.
Qed.

(** A run of the crash reporter flow inside a larger flow: its events are
    only known to be reporter events. *)
Ltac crash_reporter_run :=
  match goal with
  | |- context [@address_crash_reporter ?R ?w ?h] =>
      let ev := fresh "ev" in
      let s := fresh "s" in
      let Hev := fresh "Hev" in
      pose proof (address_crash_reporter_events R w h) as Hev;
      destruct (@address_crash_reporter R w h) as [ev s];
      cbn [events fst] in Hev; destruct s
  end.

Ltac count_events :=
  cbn [events fst];
  repeat (rewrite count_cons || rewrite count_app);
  repeat match goal with
         | H : forallb reporter_event ?ev = true |- context [count ?p ?ev] =>
             rewrite (count_none p reporter_event ev H)
               by first [exact reporter_event_not_quit
                        | exact reporter_event_not_finish
                        | exact reporter_event_not_home]
         end;
  cbv; lia.

(** C1. In every run of [confirm_firefox_quit] the quit is re-issued at
    most once, the home button is waited for at most twice and the run is
    finished at most once.  When the first wait raises [FindError] and the
    escalation's input goes through, the run is: the wait, the escalation
    (Enter, Escape, click on the home button, quit), one more wait, and
    after it no further quit and no further wait for the home button.  When
    that second wait raises [FindError] too, the only call left is
    [app.finish(1)], and the flow ends as that call ends. *)
Theorem confirm_firefox_quit_escalates_once (R : Type) (w : World) (h : list Event) :
  (count (is_shortcut QuitFirefox) (events (confirm_firefox_quit (R:=R) w h)) <= 1 /\
   count (is_wait_vanish_of "NavBar.HOME_BUTTON")
     (events (confirm_firefox_quit (R:=R) w h)) <= 2 /\
   count is_app_finish (events (confirm_firefox_quit (R:=R) w h)) <= 1) /\
  (forall e1,
     fault w h home_vanish = Some e1 ->
     is_FindError e1 = true ->
     (forall h' e, In e escalation -> fault w h' e = None) ->
     (exists rest,
        events (confirm_firefox_quit (R:=R) w h)
          = home_vanish :: escalation ++ home_vanish :: rest /\
        count (is_shortcut QuitFirefox) rest = 0 /\
        count (is_wait_vanish_of "NavBar.HOME_BUTTON") rest = 0) /\
     (forall e2,
        fault w (h ++ home_vanish :: escalation) home_vanish = Some e2 ->
        is_FindError e2 = true ->
        events (confirm_firefox_quit (R:=R) w h)
          = home_vanish :: escalation ++ [home_vanish; EAppFinish 1] /\
        outcome (result (confirm_firefox_quit (R:=R) w h))
          = fault w (h ++ home_vanish :: escalation ++ [home_vanish]) (EAppFinish 1))).
Proof.
  split.
  - unfold confirm_firefox_quit. run_py.
    repeat (first [branch | crash_reporter_run]; run_py);
      (split; [|split]); count_events.
  - intros e1 H1 He1 Hinputs. unfold escalation, home_vanish in *. split.
    + unfold confirm_firefox_quit. run_py. rewrite H1. run_py. rewrite He1. run_py.
      repeat (rewrite Hinputs by (simpl; tauto); run_py).
      repeat (first [branch | crash_reporter_run]; run_py);
        eexists; (split; [reflexivity|]); split; count_events.
    + intros e2 H2 He2.
      unfold confirm_firefox_quit. run_py. rewrite H1. run_py. rewrite He1. run_py.
      repeat (rewrite Hinputs by (simpl; tauto); run_py).
      rewrite H2. run_py. rewrite He2. run_py.
      destruct (fault w _ (EAppFinish 1)); split; reflexivity.
Qed.

Lemma confirm_firefox_quit_escalates_once_witness :
  events (confirm_firefox_quit (R:=unit) stuck_world [])
  = home_vanish :: escalation ++ [home_vanish; EAppFinish 1].
Proof.
  destruct (confirm_firefox_quit_escalates_once unit stuck_world []) as [_ H].
  destruct (H not_found) as [_ H'].
  - reflexivity.
  - reflexivity.
  - intros h' e He. simpl in He.
    repeat (destruct He as [<-|He]; [reflexivity|]). contradiction.
  - destruct (H' not_found) as [H'' _].
    + reflexivity.
    + reflexivity.
    + exact H''.
Defined.

(** *** The preference file *)

Lemma split_entry (name value : string) :
  PyStr.free_of PyStr.semicolon name = true ->
  PyStr.free_of PyStr.semicolon value = true ->
  PyStr.split PyStr.semicolon (entry (name, value)) = [name; value].
Proof.
  intros Hn Hv. unfold entry. cbn [fst snd].
  change (name +++ ";" +++ value) with (name +++ String PyStr.semicolon value).
  rewrite split_app by exact Hn.
  rewrite split_free by exact Hv. reflexivity.
Qed.

(** The loop of [write_profile_prefs] over well-formed entries: one write
    per entry, in order. *)
Lemma write_loop (R : Type) (w : World) (pref_file : string)
    (entries : list (string * string)) :
  calm w ->
  (forall name value, In (name, value) entries ->
     PyStr.free_of PyStr.semicolon name = true /\
     PyStr.free_of PyStr.semicolon value = true) ->
  forall h,
    for_ (R:=R) (map entry entries)
      (fun pref =>
         nv <- unpack2 (PyStr.split PyStr.semicolon pref) ;;
         let (name, value) := nv in
         if String.eqb value "true" || String.eqb value "false" || PyStr.isdigit value
         then call (EWrite pref_file (user_pref_bare name value))
         else call (EWrite pref_file (user_pref_quoted name value))) w h
    = (map (fun nv => EWrite pref_file (user_pref_line nv)) entries, Next tt).
Proof.
  intros Hc. induction entries as [|[name value] entries IH]; intros Hfree h.
  - reflexivity.
  - destruct (Hfree name value (or_introl eq_refl)) as [Hn Hv].
    cbn [map for_]. unfold bind at 1. unfold bind at 1.
    rewrite split_entry by assumption. cbn [unpack2 ret].
    unfold user_pref_line, literal, PyStr.isdigit. cbn [fst snd].
    destruct (String.eqb value "true" || String.eqb value "false" ||
              negb (PyStr.is_empty value) && PyStr.all_chars PyStr.isdigit_char value);
      unfold call; rewrite Hc; cbn [app];
      rewrite IH by (intros n v Hin; apply Hfree; right; exact Hin);
      reflexivity.
Qed.

(** The digits of [str.isdigit] are the ten digit characters. *)
Lemma isdigit_char_digit_character (c : ascii) :
  PyStr.isdigit_char c = is_digit_character c.
Proof.
  destruct c as [[] [] [] [] [] [] [] []]; reflexivity.
Qed.

Lemma isdigit_reads_as_number (value : string) :
  PyStr.isdigit value = reads_as_number value.
Proof.
  unfold PyStr.isdigit, reads_as_number.
  destruct value as [|c value]; [reflexivity|]. cbn [PyStr.is_empty negb andb].
  generalize (String c value). clear c value.
  induction s as [|c s IH]; [reflexivity|].
  cbn [PyStr.all_chars list_ascii_of_string forallb].
  rewrite IH, isdigit_char_digit_character. reflexivity.
Qed.

(** The two format strings of [write_profile_prefs] give the two texts. *)
Lemma user_pref_bare_text (name value : string) :
  user_pref_bare name value = bare_text name value.
Proof.
  unfold user_pref_bare, bare_text, quoted, double_quote, line_break.
  cbn [String.append].
  repeat (rewrite append_assoc; cbn [String.append]). reflexivity.
Qed.

Lemma user_pref_quoted_text (name value : string) :
  user_pref_quoted name value = quoted_text name value.
Proof.
  unfold user_pref_quoted, quoted_text, quoted, double_quote, line_break.
  cbn [String.append].
  repeat (rewrite append_assoc; cbn [String.append]). reflexivity.
Qed.

Lemma user_pref_line_expected (nv : string * string) :
  user_pref_line nv = expected_line nv.
Proof.
  destruct nv as [name value].
  unfold user_pref_line, expected_line, literal, reads_as_boolean. cbn [fst snd].
  change (negb (PyStr.is_empty value) && PyStr.all_chars PyStr.isdigit_char value)
    with (PyStr.isdigit value).
  rewrite isdigit_reads_as_number, user_pref_bare_text, user_pref_quoted_text.
  reflexivity.
Qed.

Lemma is_digit_character_In (c : ascii) :
  is_digit_character c = true <-> In c digit_characters.
Proof.
  unfold is_digit_character. rewrite existsb_exists. split.
  - intros [d [Hd E]]. apply Ascii.eqb_eq in E. subst. exact Hd.
  - intros Hc. exists c. split; [exact Hc | apply Ascii.eqb_refl].
Qed.

Lemma reads_as_number_only_digits (value : string) :
  reads_as_number value = true <-> only_digits value.
Proof.
  unfold reads_as_number, only_digits. destruct value as [|c value].
  - split; [discriminate | intros [H _]; contradiction].
  - rewrite forallb_forall, Forall_forall. split.
    + intros H. split; [discriminate|].
      intros d Hd. apply is_digit_character_In, H, Hd.
    + intros [_ H] d Hd. apply is_digit_character_In, H, Hd.
Qed.

Lemma bare_decision (value : string) :
  reads_as_boolean value || reads_as_number value = true <-> written_bare value.
Proof.
  unfold written_bare, reads_as_boolean.
  rewrite !orb_true_iff, !String.eqb_eq, reads_as_number_only_digits. tauto.
Qed.

(** C9. For a test case whose preference list is the non-empty list of
    entries [name;value], [write_profile_prefs] opens user.js in the
    profile directory for writing, writes one line per entry in order and
    closes the file.  The line of an entry whose value is [true], [false]
    or a non-empty string of digits is the text [user_pref("name", value);]
    with the value bare; the line of every other entry is
    [user_pref("name", "value");] with the value between double quotes;
    each ends with a line break. *)
Theorem write_profile_prefs_lines (R : Type) (w : World) (h : list Event)
    (test_case : BaseTest) (entries : list (string * string)) :
  calm w ->
  entries <> [] ->
  prefs test_case = map entry entries ->
  (forall name value, In (name, value) entries ->
     PyStr.free_of PyStr.semicolon name = true /\
     PyStr.free_of PyStr.semicolon value = true) ->
  let pref_file := path_join w (profile_path test_case) "user.js" in
  write_profile_prefs (R:=R) test_case w h
  = (EOpen pref_file "w"
     :: map (fun nv => EWrite pref_file (expected_line nv)) entries
     ++ [EClose pref_file], Next tt) /\
  (forall name value,
     (written_bare value ->
      expected_line (name, value)
      = "user_pref(" +++ String "034"%char name +++ String "034"%char ", "
        +++ value +++ ");" +++ String "010"%char EmptyString) /\
     (~ written_bare value ->
      expected_line (name, value)
      = "user_pref(" +++ String "034"%char name +++ String "034"%char ", "
        +++ String "034"%char value +++ String "034"%char ");"
        +++ String "010"%char EmptyString)).
Proof.
  intros Hc Hne Hprefs Hfree pref_file. split.
  - unfold write_profile_prefs. rewrite Hprefs.
    destruct entries as [|e entries]; [contradiction|].
    cbn [map length Nat.eqb negb]. cbv iota.
    unfold def, bind at 1. unfold os_path_join at 1. fold pref_file.
    unfold bind at 1. unfold call at 1. rewrite Hc.
    unfold bind at 1.
    change (entry e :: map entry entries) with (map entry (e :: entries)).
    rewrite (write_loop unit w pref_file (e :: entries) Hc Hfree).
    unfold call. rewrite Hc. cbn [app].
    rewrite (map_ext (fun nv => EWrite pref_file (user_pref_line nv))
                     (fun nv => EWrite pref_file (expected_line nv)))
      by (intros nv; rewrite user_pref_line_expected; reflexivity).
    reflexivity.
  - intros name value. unfold expected_line. cbn [fst snd]. split.
    + intros Hbare. apply bare_decision in Hbare. rewrite Hbare. reflexivity.
    + intros Hquoted.
      destruct (reads_as_boolean value || reads_as_number value) eqn:E.
      * exfalso. apply Hquoted, bare_decision, E.
      * reflexivity.
Qed.

Lemma write_profile_prefs_lines_witness :
  events (write_profile_prefs (R:=unit) sample_test still_world [])
  = [EOpen "/tmp/profile/user.js" "w";
     EWrite "/tmp/profile/user.js"
       ("user_pref(" +++ String "034"%char "browser.tabs.warnOnClose"
        +++ String "034"%char ", false);" +++ String "010"%char EmptyString);
     EWrite "/tmp/profile/user.js"
       ("user_pref(" +++ String "034"%char "browser.cache.size"
        +++ String "034"%char ", 2048);" +++ String "010"%char EmptyString);
     EWrite "/tmp/profile/user.js"
       ("user_pref(" +++ String "034"%char "browser.startup.homepage"
        +++ String "034"%char ", " +++ String "034"%char "about:blank"
        +++ String "034"%char ");" +++ String "010"%char EmptyString);
     EClose "/tmp/profile/user.js"].
Proof.
  destruct (write_profile_prefs_lines unit still_world [] sample_test
              [("browser.tabs.warnOnClose", "false");
               ("browser.cache.size", "2048");
               ("browser.startup.homepage", "about:blank")]) as [H _].
  - intros h e. reflexivity.
  - discriminate.
  - reflexivity.
  - intros name value Hin. simpl in Hin.
    repeat (destruct Hin as [Hin|Hin]; [inversion Hin; subst; split; reflexivity|]).
    contradiction.
  - rewrite H. reflexivity.
Defined.

(** The run of [launch_firefox] with a profile: one [Popen] of the command
    line, whose outcome is the call's. *)
Lemma launch_firefox_run (R : Type) (w : World) (h : list Event)
    (path profile : string) (url : option string) (args : option (list string)) :
  launch_firefox (R:=R) path (Some profile) url args w h
  = ([EPopen (firefox_command path profile url args)],
     match fault w h (EPopen (firefox_command path profile url args)) with
     | Some x => Raise x
     | None => Next (firefox_command path profile url args)
     end).
Proof.
  assert (E : (let c := fold_left (fun cmd arg => cmd ++ [arg])
                   match args with Some a => a | None => [] end
                   [path; "-foreground"; "-no-remote"; "-profile"; profile] in
               match url with Some u => (c ++ ["-new-tab"]) ++ [u] | None => c end)
              = firefox_command path profile url args).
  { unfold firefox_command. cbv zeta. rewrite fold_append.
    destruct url; simpl; [|now rewrite app_nil_r].
    rewrite <- !app_assoc. reflexivity. }
  unfold launch_firefox. cbv zeta in E |- *. rewrite E. clear E.
  generalize (firefox_command path profile url args). intros cmd.
  run_py. destruct (fault w h (EPopen cmd)); reflexivity.
Qed.

(** * More properties of the helpers *)

(** ** Strings *)






Lemma split_fields_free (sep : ascii) (s : string) :
  Forall (fun field => PyStr.free_of sep field = true) (PyStr.split sep s).
Proof.
  induction s as [|c s IH]; simpl.
  - constructor; [reflexivity | constructor].
  - destruct (Ascii.eqb c sep) eqn:E.
    + constructor; [reflexivity | exact IH].
    + destruct (PyStr.split sep s) as [|field fields]; inversion IH; subst.
      * constructor; [|constructor].
        unfold PyStr.free_of. simpl. rewrite E. reflexivity.
      * constructor; [|assumption].
        unfold PyStr.free_of in *. simpl. rewrite E. simpl. assumption.
Qed.

Lemma prefix_append (a b : string) : String.prefix a (a +++ b) = true.
Proof.
  induction a as [|c a IH]; simpl; [destruct b; reflexivity|].
  destruct (ascii_dec c c) as [_|N]; [exact IH | contradiction].
Qed.

(** ** The clipboard *)



(** X2. Whatever the world, a value returned by [get_pref_value] holds no
    semicolon: it is one field of the split. *)
Theorem get_pref_value_no_separator (R : Type) (w : World) (h : list Event)
    (pref_name value : string) :
  result (get_pref_value (R:=R) pref_name w h) = Next value ->
  PyStr.free_of PyStr.semicolon value = true.
Proof.
  unfold get_pref_value, retrieve_value, copy_to_clipboard. run_py.
  repeat (branch; run_py); try (intros E; discriminate).
  all: match goal with
       | |- context [nth_error ?l 1] =>
           pose proof (split_fields_free PyStr.semicolon
             (PyStr.strip (clipboard w
                (h ++ about_config_lookup pref_name)))) as Hfree;
           unfold about_config_lookup in Hfree;
           destruct (nth_error l 1) as [field|] eqn:Hnth
       end; run_py; repeat (branch; run_py); intros E; try discriminate;
       inversion E; subst;
       apply nth_error_In in Hnth;
       rewrite Forall_forall in Hfree; exact (Hfree _ Hnth).
Qed.

Lemma get_pref_value_no_separator_witness :
  result (get_pref_value (R:=unit) "browser.test.pref" row_world []) = Next "42" /\
  PyStr.free_of PyStr.semicolon "42" = true.
Proof.
  split; [reflexivity|].
  apply (get_pref_value_no_separator unit row_world [] "browser.test.pref").
  reflexivity.
Defined.

(** ** Preferences *)

(** X3. Once the lookup keystrokes have gone through, the only errors of
    class [Exception] that leave [get_pref_value] are [APIHelperError]s
    whose message starts with the retrieval failure text, whatever went
    wrong while copying or parsing; and then the tab is still open. *)
Theorem get_pref_value_wraps_errors (R : Type) (w : World) (h : list Event)
    (pref_name : string) (x : Exn) :
  (forall h' e, In e (lookup_calls pref_name) -> fault w h' e = None) ->
  result (get_pref_value (R:=R) pref_name w h) = Raise x ->
  is_Exception x = true ->
  exn_class x = APIHelperError /\
  String.prefix "Failed to retrieve preference value. " (message x) = true /\
  count (is_shortcut CloseTab) (events (get_pref_value (R:=R) pref_name w h)) = 0.
Proof.
  intros Hcalls. unfold get_pref_value, retrieve_value, copy_to_clipboard. run_py.
  repeat (rewrite Hcalls by (simpl; tauto); run_py).
  repeat (branch; run_py);
    try (destruct (nth_error _ 1); run_py;
         repeat (rewrite Hcalls by (simpl; tauto); run_py));
    intros E Hx; try discriminate; injection E as <-;
    try (match goal with H : is_Exception _ = false |- _ => rewrite H in Hx end;
         discriminate);
    (split; [reflexivity | split; [|reflexivity]]);
    cbn [message];
    first [ exact (prefix_append _ "list index out of range")
          | match goal with
            | e : Exn |- _ => exact (prefix_append _ (message e))
            end ].
Qed.

Lemma get_pref_value_wraps_errors_witness :
  result (get_pref_value (R:=unit) "browser.test.pref" busy_world [])
    = Raise (mkExn APIHelperError "Failed to retrieve preference value. clipboard busy") /\
  count (is_shortcut CloseTab)
    (events (get_pref_value (R:=unit) "browser.test.pref" busy_world [])) = 0.
Proof.
  split; [reflexivity|].
  apply (get_pref_value_wraps_errors unit busy_world [] "browser.test.pref"
           (mkExn APIHelperError "Failed to retrieve preference value. clipboard busy")).
  - intros h' e He. simpl in He.
    repeat (destruct He as [<-|He]; [reflexivity|]). contradiction.
  - reflexivity.
  - reflexivity.
Defined.

(** X4. On a row of two fields, [name;value], [get_pref_value] returns the
    value with its trailing whitespace stripped and its leading whitespace
    kept. *)
Theorem get_pref_value_two_fields (R : Type) (w : World) (h : list Event)
    (pref_name name value : string) :
  calm w ->
  PyStr.free_of PyStr.semicolon name = true ->
  PyStr.free_of PyStr.semicolon value = true ->
  clipboard w (h ++ about_config_lookup pref_name) = name +++ ";" +++ value ->
  result (get_pref_value (R:=R) pref_name w h) = Next (PyStr.rstrip value).
Proof.
  intros Hc Hn Hv Hclip. unfold about_config_lookup in *.
  unfold get_pref_value, retrieve_value, copy_to_clipboard. run_all.
  unfold PyStr.strip.
  change (name +++ ";" +++ value) with (name +++ String PyStr.semicolon value).
  rewrite lstrip_app, rstrip_app by reflexivity.
  rewrite split_app by (apply free_of_lstrip, Hn).
  rewrite split_free by (apply free_of_rstrip, Hv).
  cbn [nth_error]. run_all. reflexivity.
Qed.

Lemma get_pref_value_two_fields_witness :
  result (get_pref_value (R:=unit) "browser.test.pref" padded_world []) = Next "  42".
Proof.
  apply (get_pref_value_two_fields unit padded_world [] "browser.test.pref"
           "browser.test.pref" "  42  ").
  - intros h e. reflexivity.
  - reflexivity.
  - reflexivity.
  - reflexivity.
Defined.

(** What [get_pref_value] does in a calm world, by the second field of the
    stripped clipboard text. *)
Lemma get_pref_value_calm (R : Type) (w : World) (h : list Event) (pref_name : string) :
  calm w ->
  get_pref_value (R:=R) pref_name w h
  = match nth_error (PyStr.split PyStr.semicolon
                       (PyStr.strip (clipboard w (h ++ about_config_lookup pref_name)))) 1 with
    | Some field =>
        (about_config_lookup pref_name ++ [EGetClipboard; EShortcut CloseTab], Next field)
    | None =>
        (about_config_lookup pref_name ++ [EGetClipboard],
         Raise (mkExn APIHelperError
                  "Failed to retrieve preference value. list index out of range"))
    end.
Proof.
  intros Hc. unfold about_config_lookup.
  unfold get_pref_value, retrieve_value, copy_to_clipboard. run_all.
  destruct (nth_error _ 1); run_all; reflexivity.
Qed.

(** X5. In a calm world [get_firefox_build_id_from_about_config] looks the
    second preference up exactly when the row of the first has no second
    field.  The failed first lookup leaves its tab open, so a build id
    found on the second attempt comes with two tabs opened and one closed;
    when both rows lack the field the call raises its own
    [APIHelperError]. *)
Theorem get_firefox_build_id_fallback (R : Type) (w : World) (h : list Event) :
  calm w ->
  get_firefox_build_id_from_about_config (R:=R) w h
  = match field_read w h build_id_pref_1 with
    | Some v =>
        (about_config_lookup build_id_pref_1 ++ [EGetClipboard; EShortcut CloseTab],
         Next v)
    | None =>
        let first := about_config_lookup build_id_pref_1 ++ [EGetClipboard] in
        match field_read w (h ++ first) build_id_pref_2 with
        | Some v =>
            (first ++ about_config_lookup build_id_pref_2
             ++ [EGetClipboard; EShortcut CloseTab], Next v)
        | None =>
            (first ++ about_config_lookup build_id_pref_2 ++ [EGetClipboard],
             Raise no_build_id)
        end
    end.
Proof.
  intros Hc. unfold get_firefox_build_id_from_about_config, field_read. unfold_py.
  rewrite (get_pref_value_calm string w h build_id_pref_1 Hc).
  destruct (nth_error _ 1) as [v|]; [reflexivity|].
  cbn [is_APIHelperError exn_class ExnClass_eqb].
  rewrite (get_pref_value_calm string w _ build_id_pref_2 Hc).
  cbv zeta. destruct (nth_error _ 1) as [v|]; reflexivity.
Qed.

Lemma get_firefox_build_id_fallback_witness :
  result (get_firefox_build_id_from_about_config (R:=unit) build_id_world [])
    = Next "20180905100105" /\
  count (is_shortcut NewTab)
    (events (get_firefox_build_id_from_about_config (R:=unit) build_id_world [])) = 2 /\
  count (is_shortcut CloseTab)
    (events (get_firefox_build_id_from_about_config (R:=unit) build_id_world [])) = 1.
Proof.
  rewrite (get_firefox_build_id_fallback unit build_id_world [])
    by (intros h e; reflexivity).
  repeat split; reflexivity.
Defined.

(** X6. [get_firefox_version_from_about_config] and
    [get_firefox_channel_from_about_config] return the second field of the
    row of their preference, and report a row without one as an
    [APIHelperError] of their own, in place of the reader's. *)
Theorem version_and_channel_from_about_config (R : Type) (w : World)
    (h : list Event) :
  calm w ->
  result (get_firefox_version_from_about_config (R:=R) w h)
  = match field_read w h "extensions.lastAppVersion" with
    | Some v => Next v
    | None => Raise (mkExn APIHelperError
        "Could not retrieve firefox version information from about:config page.")
    end /\
  result (get_firefox_channel_from_about_config (R:=R) w h)
  = match field_read w h "app.update.channel" with
    | Some v => Next v
    | None => Raise (mkExn APIHelperError
        "Could not retrieve firefox channel information from about:config page.")
    end.
Proof.
  intros Hc. split.
  - unfold get_firefox_version_from_about_config, field_read. unfold_py.
    rewrite (get_pref_value_calm string w h _ Hc).
    destruct (nth_error _ 1); reflexivity.
  - unfold get_firefox_channel_from_about_config, field_read. unfold_py.
    rewrite (get_pref_value_calm string w h _ Hc).
    destruct (nth_error _ 1); reflexivity.
Qed.

Lemma version_and_channel_from_about_config_witness :
  result (get_firefox_version_from_about_config (R:=unit) row_world []) = Next "42" /\
  result (get_firefox_channel_from_about_config (R:=unit) bare_world [])
  = Raise (mkExn APIHelperError
      "Could not retrieve firefox channel information from about:config page.").
Proof.
  split.
  - destruct (version_and_channel_from_about_config unit row_world [])
      as [H _]; [intros h e; reflexivity|].
    rewrite H. reflexivity.
  - destruct (version_and_channel_from_about_config unit bare_world [])
      as [_ H]; [intros h e; reflexivity|].
    rewrite H. reflexivity.
Defined.

(** X7. Whatever the world, an error of class [Exception] that leaves
    [change_preference] is the one [APIHelperError] naming the value and
    the preference: every failure on the way, the reader's included, is
    replaced by it. *)
Theorem change_preference_wraps_errors (R : Type) (w : World) (h : list Event)
    (pref_name value : string) (x : Exn) :
  result (change_preference (R:=R) pref_name value w h) = Raise x ->
  is_Exception x = true ->
  x = mkExn APIHelperError
        ("Could not set value: " +++ value +++ " to preference: " +++ pref_name).
Proof.
  unfold change_preference, retrieve_value, copy_to_clipboard. run_py.
  repeat (first [ branch
                | match goal with
                  | |- context [nth_error ?l 1] => destruct (nth_error l 1)
                  | |- context [String.eqb ?a value] => destruct (String.eqb a value)
                  end ]; run_py);
    intros E Hx; try discriminate; injection E as <-;
    try reflexivity;
    match goal with H : is_Exception _ = false |- _ => rewrite H in Hx end;
    discriminate.
Qed.

Lemma change_preference_wraps_errors_witness :
  exists x,
    result (change_preference (R:=unit) "browser.test.pref" "42" busy_world [])
      = Raise x /\
    x = mkExn APIHelperError
          "Could not set value: 42 to preference: browser.test.pref".
Proof.
  eexists. split; [reflexivity|].
  apply (change_preference_wraps_errors unit busy_world [] "browser.test.pref" "42");
    reflexivity.
Defined.

(** X8. When the value read back differs from the requested one and the
    preference dialog does not show (the wait for its icon raises
    [FindError]), [change_preference] closes the tab and returns normally:
    the requested value was never pasted and no error is reported. *)
Theorem change_preference_without_dialog (R : Type) (w : World) (h : list Event)
    (pref_name value field : string) (x : Exn) :
  (forall h' e, In e (EGetClipboard :: EShortcut EditSelectAll :: EShortcut EditCopy
                      :: lookup_calls pref_name) -> fault w h' e = None) ->
  field_read w h pref_name = Some field ->
  String.eqb field value = false ->
  fault w (h ++ about_config_lookup pref_name ++ [EGetClipboard; EType (TKey ENTER)])
    (EWait (Pattern_ "preference_dialog_icon.png") 3) = Some x ->
  is_FindError x = true ->
  change_preference (R:=R) pref_name value w h
  = (about_config_lookup pref_name
     ++ [EGetClipboard; EType (TKey ENTER);
         EWait (Pattern_ "preference_dialog_icon.png") 3; EShortcut CloseTab],
     Next tt).
Proof.
  intros Hcalls Hfield Hne Hwait Hx.
  unfold field_read, about_config_lookup in *. cbn [app] in Hwait.
  unfold change_preference, retrieve_value, copy_to_clipboard. run_py.
  repeat (rewrite Hcalls by (simpl; tauto); run_py).
  rewrite Hfield. run_py. rewrite Hne. run_py.
  repeat (rewrite Hcalls by (simpl; tauto); run_py).
  rewrite Hwait. run_py. rewrite Hx. run_py.
  repeat (rewrite Hcalls by (simpl; tauto); run_py).
  reflexivity.
Qed.

Lemma change_preference_without_dialog_witness :
  count (is_paste_of "43")
    (events (change_preference (R:=unit) "browser.test.pref" "43" no_dialog_world [])) = 0 /\
  result (change_preference (R:=unit) "browser.test.pref" "43" no_dialog_world [])
  = Next tt.
Proof.
  rewrite (change_preference_without_dialog unit no_dialog_world []
             "browser.test.pref" "43" "42"
             (mkExn FindError "preference_dialog_icon.png")).
  - split; reflexivity.
  - intros h' e He. simpl in He.
    repeat (destruct He as [<-|He]; [reflexivity|]). contradiction.
  - reflexivity.
  - reflexivity.
  - reflexivity.
  - reflexivity.
Defined.

(** ** Quitting and restarting *)

(** X9. When the home button vanishes on the first wait and no crash
    reporter is found, [confirm_firefox_quit] is done after these two
    calls: no escalation, no [app.finish]. *)
Theorem confirm_firefox_quit_clean (R : Type) (w : World) (h : list Event) :
  fault w h home_vanish = None ->
  probe w (h ++ [home_vanish]) reporter_pattern = false ->
  confirm_firefox_quit (R:=R) w h
  = ([home_vanish; EExists reporter_pattern 2], Next tt).
Proof.
  intros Hgone Hnone. unfold home_vanish in *.
  unfold confirm_firefox_quit, address_crash_reporter. run_all. reflexivity.
Qed.

Lemma confirm_firefox_quit_clean_witness :
  confirm_firefox_quit (R:=unit) still_world []
  = ([home_vanish; EExists reporter_pattern 2], Next tt).
Proof.
  apply (confirm_firefox_quit_clean unit still_world []); reflexivity.
Defined.



(** X11. When the home button does not vanish after the quit,
    [restart_firefox] raises its [APIHelperError] and starts no process. *)
Theorem restart_firefox_still_around (R : Type) (w : World) (h : list Event)
    (path : string) (profile url : option string) (args : option (list string))
    (image : option Pattern) (x : Exn) :
  fault w h (EShortcut QuitFirefox) = None ->
  fault w (h ++ [EShortcut QuitFirefox]) home_vanish = Some x ->
  is_FindError x = true ->
  restart_firefox (R:=R) path profile url args image w h
  = ([EShortcut QuitFirefox; home_vanish], Raise still_around).
Proof.
  intros Hquit Hstays Hx. unfold home_vanish in *.
  unfold restart_firefox. run_all. rewrite Hx. run_py. reflexivity.
Qed.

Lemma restart_firefox_still_around_witness :
  restart_firefox (R:=unit) "/usr/bin/firefox" (Some "p") None None None stuck_world []
  = ([EShortcut QuitFirefox; home_vanish], Raise still_around).
Proof.
  apply (restart_firefox_still_around unit stuck_world [] "/usr/bin/firefox"
           (Some "p") None None None not_found); reflexivity.
Defined.

(** X12. When the quit goes through, the home button vanishes and the
    process starts, [restart_firefox] has launched Firefox once, with the
    command line of [launch_firefox], and then probes for [image], or for
    the home button when no image is given.  It returns when the probe
    answers true and raises [APIHelperError] when it answers false. *)
Theorem restart_firefox_relaunches (R : Type) (w : World) (h : list Event)
    (path profile : string) (url : option string) (args : option (list string))
    (image : option Pattern) :
  let cmd := firefox_command path profile url args in
  let check := match image with Some p => p | None => NavBar.HOME_BUTTON end in
  let before := [EShortcut QuitFirefox; home_vanish; ESleep SYSTEM_DELAY] in
  fault w h (EShortcut QuitFirefox) = None ->
  fault w (h ++ [EShortcut QuitFirefox]) home_vanish = None ->
  fault w (h ++ before) (EPopen cmd) = None ->
  restart_firefox (R:=R) path (Some profile) url args image w h
  = (before ++ [EPopen cmd; EExists check 20],
     if probe w (h ++ before ++ [EPopen cmd]) check then Next tt
     else Raise not_relaunched).
Proof.
  intros cmd check before Hquit Hgone Hstart.
  pose proof (launch_firefox_run unit w (h ++ before) path profile url args) as Hl.
  fold cmd in Hl. rewrite Hstart in Hl.
  subst before check. unfold home_vanish in *. clearbody cmd.
  unfold restart_firefox. run_py. rewrite Hquit. run_py. rewrite Hgone. run_py.
  rewrite Hl. run_py.
  destruct image as [p|]; destruct (probe w _ _); reflexivity.
Qed.

Lemma restart_firefox_relaunches_witness :
  restart_firefox (R:=unit) "/usr/bin/firefox" (Some "p") (Some "about:blank")
    None None present_world []
  = ([EShortcut QuitFirefox; home_vanish; ESleep SYSTEM_DELAY;
      EPopen ["/usr/bin/firefox"; "-foreground"; "-no-remote"; "-profile"; "p";
              "-new-tab"; "about:blank"];
      EExists NavBar.HOME_BUTTON 20], Next tt).
Proof.
  rewrite (restart_firefox_relaunches unit present_world [] "/usr/bin/firefox" "p"
             (Some "about:blank") None None); reflexivity.
Defined.

(** X13. Without a profile [restart_firefox] has already quit Firefox and
    waited for it to go when [launch_firefox] raises [ValueError]: the
    error is not turned into an [APIHelperError] and nothing is
    relaunched. *)
Theorem restart_firefox_without_profile (R : Type) (w : World) (h : list Event)
    (path : string) (url : option string) (args : option (list string))
    (image : option Pattern) :
  fault w h (EShortcut QuitFirefox) = None ->
  fault w (h ++ [EShortcut QuitFirefox]) home_vanish = None ->
  restart_firefox (R:=R) path None url args image w h
  = ([EShortcut QuitFirefox; home_vanish; ESleep SYSTEM_DELAY],
     Raise (mkExn ValueError EmptyString)).
Proof.
  intros Hquit Hgone. unfold home_vanish in *.
  unfold restart_firefox, launch_firefox. run_all. reflexivity.
Qed.

Lemma restart_firefox_without_profile_witness :
  count is_popen
    (events (restart_firefox (R:=unit) "/usr/bin/firefox" None None None None
               still_world [])) = 0 /\
  raises ValueError
    (result (restart_firefox (R:=unit) "/usr/bin/firefox" None None None None
               still_world [])) = true.
Proof.
  rewrite (restart_firefox_without_profile unit still_world [] "/usr/bin/firefox"
             None None None); [split|..]; reflexivity.
Defined.

(** X14. [wait_for_firefox_restart] waits for the home button to come back
    only after it has seen it vanish, and returns normally exactly when
    both waits succeed. *)
Theorem wait_for_firefox_restart_sequence (R : Type) (w : World) (h : list Event) :
  (result (wait_for_firefox_restart (R:=R) w h) = Next tt <->
   fault w h home_vanish = None /\
   fault w (h ++ [home_vanish]) (EWait NavBar.HOME_BUTTON 20) = None) /\
  (fault w h home_vanish <> None ->
   events (wait_for_firefox_restart (R:=R) w h) = [home_vanish]).
Proof.
  unfold home_vanish. unfold wait_for_firefox_restart. run_py.
  repeat (branch; run_py); (split; [split|]);
    try (intros [? ?]); try intros; try discriminate; try congruence;
    try (split; congruence); try reflexivity.
Qed.

Lemma wait_for_firefox_restart_sequence_witness :
  events (wait_for_firefox_restart (R:=unit) stuck_world []) = [home_vanish].
Proof.
  destruct (wait_for_firefox_restart_sequence unit stuck_world []) as [_ H].
  apply H. discriminate.
Defined.

(** X15. [navigate], [click_cancel_button], [close_customize_page] and
    [confirm_close_multiple_tabs] never let a [FindError] out, whatever
    the world: what they catch they raise again as [APIHelperError], or,
    for the tabs warning, drop. *)
Theorem no_FindError_from_actions (R : Type) (w : World) (h : list Event)
    (url : string) :
  raises FindError (result (navigate (R:=R) url w h)) = false /\
  raises FindError (result (click_cancel_button (R:=R) w h)) = false /\
  raises FindError (result (close_customize_page (R:=R) w h)) = false /\
  raises FindError (result (confirm_close_multiple_tabs (R:=R) w h)) = false.
Proof.
  repeat split.
  - unfold navigate. run_py. repeat (branch; run_py); try reflexivity;
      destruct e as [[] m]; try discriminate; reflexivity.
  - unfold click_cancel_button. run_py. repeat (branch; run_py); try reflexivity;
      assumption.
  - unfold close_customize_page. run_py. repeat (branch; run_py); try reflexivity;
      assumption.
  - unfold confirm_close_multiple_tabs. run_py. repeat (branch; run_py);
      try reflexivity; assumption.
Qed.

(** X16. [wait_for_firefox_restart], [restore_firefox_focus] and
    [create_region_from_image] never let a [FindError] out either: every
    [FindError] of their waits, clicks and searches is raised again as
    [APIHelperError]. *)
Theorem no_FindError_from_checks (R : Type) (w : World) (h : list Event)
    (image : Pattern) :
  raises FindError (result (wait_for_firefox_restart (R:=R) w h)) = false /\
  raises FindError (result (restore_firefox_focus (R:=R) w h)) = false /\
  raises FindError (result (create_region_from_image (R:=R) image w h)) = false.
Proof.
  repeat split.
  - unfold wait_for_firefox_restart. run_py. repeat (branch; run_py);
      try reflexivity; assumption.
  - unfold restore_firefox_focus. run_py.
    destruct (image_size w NavBar.HOME_BUTTON) as [wd ht]. run_py.
    repeat (branch; run_py); try reflexivity; assumption.
  - unfold create_region_from_image. run_py. repeat (branch; run_py);
      try reflexivity; assumption.
Qed.

(** ** Tabs of the raw data readers *)

(** X17. Once the about:support page is open, [get_support_info] closes the
    tab exactly once however the click, the clipboard read and the
    decoding end; and with the tab closed cleanly, an error of class
    [Exception] from any of them comes out as [APIHelperError]. *)
Theorem get_support_info_cleans_up (R : Type) (w : World) (h : list Event) :
  (forall h' e,
     In e [EShortcut NewTab; EShortcut SelectLocationBar; EPaste "about:support";
           EType (TKey ENTER); EShortcut CloseTab] -> fault w h' e = None) ->
  count (is_shortcut CloseTab) (events (get_support_info (R:=R) w h)) = 1 /\
  (forall x, result (get_support_info (R:=R) w h) = Raise x ->
             is_Exception x = true -> exn_class x = APIHelperError).
Proof.
  intros Hsetup. unfold get_support_info. run_py.
  repeat (rewrite Hsetup by (simpl; tauto); run_py).
  repeat (branch; run_py; repeat (rewrite Hsetup by (simpl; tauto); run_py));
    (split; [reflexivity|]); intros x E Hx; try discriminate;
    injection E as <-; try reflexivity;
    match goal with H : is_Exception _ = false |- _ => rewrite H in Hx end;
    discriminate.
Qed.

Lemma get_support_info_cleans_up_witness :
  result (get_support_info (R:=unit) json_world []) = Next (Decoded "{}") /\
  count (is_shortcut CloseTab) (events (get_support_info (R:=unit) json_world [])) = 1.
Proof.
  split; [reflexivity|].
  destruct (get_support_info_cleans_up unit json_world []) as [H _].
  - intros h' e He. reflexivity.
  - exact H.
Defined.

(** X18. Once [get_telemetry_info] has found and clicked the RAW JSON
    button, it closes the tab exactly once on every way out, provided
    that what the wait for and the click on the Raw Data button raise is a
    [FindError] or a [ValueError]. *)
Theorem get_telemetry_info_closes_tab (R : Type) (w : World) (h : list Event) :
  (forall h' e,
     In e [EShortcut NewTab; EPaste "about:telemetry"; EType (TKey ENTER);
           EWait (Pattern_ "raw_json.png") 10; EClick (Pattern_ "raw_json.png")] ->
     fault w h' e = None) ->
  (forall h' e x,
     In e [EWait (Pattern_ "raw_data.png") 10; EClick (Pattern_ "raw_data.png")] ->
     fault w h' e = Some x -> is_FindError_or_ValueError x = true) ->
  count (is_shortcut CloseTab) (events (get_telemetry_info (R:=R) w h)) = 1.
Proof.
  intros Hsetup Hdata. unfold get_telemetry_info. run_py.
  repeat (rewrite Hsetup by (simpl; tauto); run_py).
  repeat (branch; run_py); try reflexivity;
    match goal with
    | Hf : fault w ?h' ?e = Some ?x, Hn : is_FindError_or_ValueError ?x = false |- _ =>
        rewrite (Hdata h' e x) in Hn by (simpl; tauto); discriminate
    end.
Qed.

Lemma get_telemetry_info_closes_tab_witness :
  count (is_shortcut CloseTab) (events (get_telemetry_info (R:=unit) json_world [])) = 1.
Proof.
  apply (get_telemetry_info_closes_tab unit json_world []).
  - intros h' e He. reflexivity.
  - intros h' e x He Hf. discriminate.
Defined.

(** ** Window controls *)

(** X19. When the wait for the window controls raises [FindError],
    [click_auxiliary_window_control] raises its [APIHelperError] and
    clicks nothing, whatever the button and the platform. *)
Theorem click_auxiliary_window_control_not_found (R : Type) (w : World)
    (h : list Event) (button : string) :
  (forall h' t d, fault w h' (EHover t d) = None) ->
  (forall h' p t, exists x, fault w h' (EWait p t) = Some x /\ is_FindError x = true) ->
  result (click_auxiliary_window_control (R:=R) button w h) = Raise cannot_find_controls /\
  count is_click (events (click_auxiliary_window_control (R:=R) button w h)) = 0.
Proof.
  intros Hhover Hwait. unfold click_auxiliary_window_control.
  destruct (os w) eqn:Hos; run_py; rewrite ?Hos; run_py;
    repeat (rewrite Hhover; run_py; rewrite ?Hos; run_py);
    match goal with
    | |- context [fault w ?h' (EWait ?p ?t)] =>
        destruct (Hwait h' p t) as [x [Hf Hx]]; rewrite Hf; run_py; rewrite Hx; run_py
    end; split; reflexivity.
Qed.

Lemma click_auxiliary_window_control_not_found_witness :
  result (click_auxiliary_window_control (R:=unit) "maximize" blind_world [])
  = Raise cannot_find_controls.
Proof.
  destruct (click_auxiliary_window_control_not_found unit blind_world [] "maximize")
    as [H _].
  - intros h' t d. reflexivity.
  - intros h' p t. eexists. split; reflexivity.
  - exact H.
Defined.

(** X20. Two buttons read a pattern that their platform never assigned:
    [full_screen] off the Mac and [zoom_restore] on the Mac end in
    [UnboundLocalError] once the controls are found, without a click. *)
Theorem click_auxiliary_window_control_unbound (R : Type) (w : World)
    (h : list Event) :
  calm w ->
  (os w <> MAC ->
   raises UnboundLocalError
     (result (click_auxiliary_window_control (R:=R) "full_screen" w h)) = true /\
   count is_click
     (events (click_auxiliary_window_control (R:=R) "full_screen" w h)) = 0) /\
  (os w = MAC ->
   raises UnboundLocalError
     (result (click_auxiliary_window_control (R:=R) "zoom_restore" w h)) = true /\
   count is_click
     (events (click_auxiliary_window_control (R:=R) "zoom_restore" w h)) = 0).
Proof.
  intros Hc. unfold click_auxiliary_window_control, reset_mouse. split; intros Hos.
  - destruct (os w) eqn:E; [contradiction| |];
      run_py; rewrite ?E; run_py;
      repeat (first [rewrite (Hc _ _) | rewrite E]; run_py);
      split; reflexivity.
  - run_py; rewrite ?Hos; run_py;
      repeat (first [rewrite (Hc _ _) | rewrite Hos]; run_py);
      split; reflexivity.
Qed.

Lemma click_auxiliary_window_control_unbound_witness :
  raises UnboundLocalError
    (result (click_auxiliary_window_control (R:=unit) "full_screen" still_world []))
    = true /\
  raises UnboundLocalError
    (result (click_auxiliary_window_control (R:=unit) "zoom_restore" mac_world []))
    = true.
Proof.
  split.
  - destruct (click_auxiliary_window_control_unbound unit still_world []) as [H _];
      [intros h e; reflexivity|].
    destruct H as [H _]; [discriminate | exact H].
  - destruct (click_auxiliary_window_control_unbound unit mac_world []) as [_ H];
      [intros h e; reflexivity|].
    destruct H as [H _]; [reflexivity | exact H].
Defined.

(** X21. A button name that is none of close, minimize, full_screen,
    maximize and zoom_restore makes [click_auxiliary_window_control]
    locate the controls and return without a click and without an error. *)
Theorem click_auxiliary_window_control_unknown (R : Type) (w : World)
    (h : list Event) (button : string) :
  calm w ->
  ~ In button ["close"; "minimize"; "full_screen"; "maximize"; "zoom_restore"] ->
  result (click_auxiliary_window_control (R:=R) button w h) = Next tt /\
  count is_click (events (click_auxiliary_window_control (R:=R) button w h)) = 0.
Proof.
  intros Hc Hnot.
  assert (Hne : forall name,
            In name ["close"; "minimize"; "full_screen"; "maximize"; "zoom_restore"] ->
            String.eqb button name = false).
  { intros name Hin. apply String.eqb_neq. intros ->. exact (Hnot Hin). }
  unfold click_auxiliary_window_control.
  destruct (os w) eqn:E; run_py; rewrite ?E; run_py;
    repeat (first [rewrite (Hc _ _) | rewrite E]; run_py);
    repeat (rewrite Hne by (simpl; tauto); run_py);
    split; reflexivity.
Qed.

Lemma click_auxiliary_window_control_unknown_witness :
  result (click_auxiliary_window_control (R:=unit) "Close" still_world []) = Next tt.
Proof.
  destruct (click_auxiliary_window_control_unknown unit still_world [] "Close")
    as [H _].
  - intros h e. reflexivity.
  - simpl. intros [H|[H|[H|[H|[H|[]]]]]]; discriminate.
  - exact H.
Defined.

(** ** Regions *)

(** X22. [create_region_from_image] makes exactly one [find]; when [find]
    returns nothing it raises "No matching found.", and when [find] raises
    [FindError] it raises "Image not present.". *)
Theorem create_region_from_image_failures (R : Type) (w : World) (h : list Event)
    (image : Pattern) :
  events (create_region_from_image (R:=R) image w h) = [EFind image] /\
  (fault w h (EFind image) = None -> located w h image = None ->
   result (create_region_from_image (R:=R) image w h)
   = Raise (mkExn APIHelperError "No matching found.")) /\
  (forall x, fault w h (EFind image) = Some x -> is_FindError x = true ->
   result (create_region_from_image (R:=R) image w h)
   = Raise (mkExn APIHelperError "Image not present.")).
Proof.
  unfold create_region_from_image. split; [|split].
  - all_branches; reflexivity.
  - intros Hf Hl. run_all. reflexivity.
  - intros x Hf Hx. run_all. rewrite Hx. reflexivity.
Qed.

Lemma create_region_from_image_failures_witness :
  result (create_region_from_image (R:=unit) NavBar.HAMBURGER_MENU still_world [])
  = Raise (mkExn APIHelperError "No matching found.").
Proof.
  destruct (create_region_from_image_failures unit still_world []
              NavBar.HAMBURGER_MENU) as [_ [H _]].
  apply H; reflexivity.
Defined.

(** ** The preference file, malformed entries *)

Lemma write_loop_stops (R : Type) (w : World) (pref_file : string)
    (good : list (string * string)) (bad : string) (rest : list string) :
  calm w ->
  (forall name value, In (name, value) good ->
     PyStr.free_of PyStr.semicolon name = true /\
     PyStr.free_of PyStr.semicolon value = true) ->
  length (PyStr.split PyStr.semicolon bad) <> 2 ->
  forall h, exists msg,
    for_ (R:=R) (map entry good ++ bad :: rest)
      (fun pref =>
         nv <- unpack2 (PyStr.split PyStr.semicolon pref) ;;
         let (name, value) := nv in
         if String.eqb value "true" || String.eqb value "false" || PyStr.isdigit value
         then call (EWrite pref_file (user_pref_bare name value))
         else call (EWrite pref_file (user_pref_quoted name value))) w h
    = (map (fun nv => EWrite pref_file (user_pref_line nv)) good,
       Raise (mkExn ValueError msg)).
Proof.
  intros Hc. induction good as [|[name value] good IH]; intros Hfree Hbad h.
  - cbn [map app for_]. unfold bind at 1. unfold bind at 1.
    destruct (PyStr.split PyStr.semicolon bad) as [|a [|b [|c l]]];
      try (eexists; reflexivity).
    exfalso. apply Hbad. reflexivity.
  - destruct (Hfree name value (or_introl eq_refl)) as [Hn Hv].
    destruct (IH (fun n v Hin => Hfree n v (or_intror Hin)) Hbad
                 (h ++ [EWrite pref_file (user_pref_line (name, value))]))
      as [msg Hmsg].
    exists msg.
    cbn [map app for_]. unfold bind at 1. unfold bind at 1.
    rewrite split_entry by assumption. cbn [unpack2 ret].
    unfold user_pref_line, literal, PyStr.isdigit in *. cbn [fst snd] in *.
    destruct (String.eqb value "true" || String.eqb value "false" ||
              negb (PyStr.is_empty value) && PyStr.all_chars PyStr.isdigit_char value);
      unfold call in *; rewrite Hc; cbn [app]; rewrite Hmsg; reflexivity.
Qed.

(** X23. An entry that does not split into exactly two fields stops
    [write_profile_prefs] with [ValueError]: user.js has been opened and
    holds the lines of the entries before it, nothing more is written and
    the file is not closed. *)
Theorem write_profile_prefs_malformed (R : Type) (w : World) (h : list Event)
    (test_case : BaseTest) (good : list (string * string)) (bad : string)
    (rest : list string) :
  calm w ->
  prefs test_case = map entry good ++ bad :: rest ->
  (forall name value, In (name, value) good ->
     PyStr.free_of PyStr.semicolon name = true /\
     PyStr.free_of PyStr.semicolon value = true) ->
  length (PyStr.split PyStr.semicolon bad) <> 2 ->
  let pref_file := path_join w (profile_path test_case) "user.js" in
  events (write_profile_prefs (R:=R) test_case w h)
    = EOpen pref_file "w" :: map (fun nv => EWrite pref_file (user_pref_line nv)) good /\
  raises ValueError (result (write_profile_prefs (R:=R) test_case w h)) = true.
Proof.
  intros Hc Hprefs Hfree Hbad pref_file.
  destruct (write_loop_stops unit w pref_file good bad rest Hc Hfree Hbad
              (h ++ [EOpen pref_file "w"])) as [msg Hloop].
  assert (Hlen : negb (Nat.eqb (length (map entry good ++ bad :: rest)) 0) = true).
  { rewrite length_app. simpl. rewrite Nat.add_succ_r. reflexivity. }
  assert (E : write_profile_prefs (R:=R) test_case w h
              = (EOpen pref_file "w"
                 :: map (fun nv => EWrite pref_file (user_pref_line nv)) good,
                 Raise (mkExn ValueError msg))).
  { unfold write_profile_prefs. rewrite Hprefs, Hlen.
    unfold def, bind at 1. unfold os_path_join at 1. fold pref_file.
    unfold bind at 1. unfold call at 1. rewrite Hc.
    unfold bind at 1. rewrite app_nil_r. rewrite Hloop. reflexivity. }
  rewrite E. split; reflexivity.
Qed.

Lemma write_profile_prefs_malformed_witness :
  events (write_profile_prefs (R:=unit) broken_test still_world [])
  = [EOpen "/tmp/profile/user.js" "w";
     EWrite "/tmp/profile/user.js"
       (user_pref_line ("browser.tabs.warnOnClose", "false"))].
Proof.
  destruct (write_profile_prefs_malformed unit still_world [] broken_test
              [("browser.tabs.warnOnClose", "false")] "browser.cache.size"
              ["browser.startup.homepage;about:blank"]) as [H _].
  - intros h e. reflexivity.
  - reflexivity.
  - intros name value [Hin|[]]. inversion Hin; subst. split; reflexivity.
  - discriminate.
  - rewrite H. reflexivity.
Defined.

(** ** Firefox arguments *)

Lemma append_if_app (flag : bool) (name : string) (args : list string) :
  append_if flag name args = args ++ (if flag then [name] else []).
Proof. destruct flag; simpl; [reflexivity | now rewrite app_nil_r]. Qed.

(** X24. [create_firefox_args] fails exactly when a window size is given
    that does not split on [x] into two fields of which the first reads as
    an integer; the error is always the same [APIHelperError]. *)
Theorem create_firefox_args_error (test_case : TestCaseOptions) :
  ((exists e, snd (create_firefox_args test_case) = inl e) <->
   truthy (window_size test_case) = true /\
   (forall w h,
      PyStr.split "x"%char (text_of (window_size test_case)) = [w; h] ->
      PyInt.int w = None)) /\
  (forall e, snd (create_firefox_args test_case) = inl e ->
             e = incorrect_window_size).
Proof.
  unfold create_firefox_args, window_size_args.
  destruct (truthy (window_size test_case)).
  - destruct (PyStr.split "x"%char (text_of (window_size test_case)))
      as [|w [|hgt [|c l]]]; cbn [snd].
    + split; [split|].
      * intros _. split; [reflexivity | intros ? ? E; discriminate].
      * intros _. eexists; reflexivity.
      * intros e E. injection E as <-. reflexivity.
    + split; [split|].
      * intros _. split; [reflexivity | intros ? ? E; discriminate].
      * intros _. eexists; reflexivity.
      * intros e E. injection E as <-. reflexivity.
    + destruct (PyInt.int w) eqn:Hint; cbn [snd].
      * split; [split|].
        -- intros [e E]. discriminate.
        -- intros [_ H]. specialize (H w hgt eq_refl). congruence.
        -- intros e E. discriminate.
      * split; [split|].
        -- intros _. split; [reflexivity|]. intros ? ? E. injection E as <- <-.
           exact Hint.
        -- intros _. eexists; reflexivity.
        -- intros e E. injection E as <-. reflexivity.
    + split; [split|].
      * intros _. split; [reflexivity | intros ? ? E; discriminate].
      * intros _. eexists; reflexivity.
      * intros e E. injection E as <-. reflexivity.
  - cbn [snd]. split; [split|].
    + intros [e E]. discriminate.
    + intros [E _]. discriminate.
    + intros e E. discriminate.
Qed.

(** X25. For a window size [WxH] whose width reads as an integer,
    [create_firefox_args] passes -width W -height H on, whatever H is (the
    height is never read as a number), and leaves the test case with
    [maximize_window] off. *)
Theorem create_firefox_args_window (test_case : TestCaseOptions)
    (w hgt : string) (n : Z) :
  window_size test_case = Some (w +++ "x" +++ hgt) ->
  PyStr.free_of "x"%char w = true ->
  PyStr.free_of "x"%char hgt = true ->
  PyInt.int w = Some n ->
  (exists before after,
     snd (create_firefox_args test_case)
     = inr (before ++ ["-width"; w; "-height"; hgt] ++ after)) /\
  maximize_window (fst (create_firefox_args test_case)) = false.
Proof.
  intros Hsize Hw Hh Hint.
  unfold create_firefox_args, window_size_args. rewrite Hsize.
  assert (Htruthy : truthy (Some (w +++ "x" +++ hgt)) = true)
    by (destruct w; reflexivity).
  rewrite Htruthy. cbn [text_of].
  change (w +++ "x" +++ hgt) with (w +++ String "x"%char hgt).
  rewrite split_app by exact Hw. rewrite split_free by exact Hh.
  rewrite Hint. cbn [fst snd]. split; [|reflexivity].
  destruct (truthy (search (set_maximize_window false test_case)));
    exists (append_if (private_window test_case) "-private-window"
              (append_if (private_browsing test_case) "-private" []));
    eexists; rewrite !append_if_app;
    repeat rewrite <- app_assoc; cbn [app]; reflexivity.
Qed.

Lemma create_firefox_args_window_witness :
  snd (create_firefox_args (sized_options "800xtall"))
    = inr ["-private"; "-width"; "800"; "-height"; "tall"; "-devtools"] /\
  maximize_window (fst (create_firefox_args (sized_options "800xtall"))) = false.
Proof.
  split; [reflexivity|].
  destruct (create_firefox_args_window (sized_options "800xtall") "800" "tall" 800)
    as [_ H].
  - reflexivity.
  - reflexivity.
  - reflexivity.
  - reflexivity.
  - exact H.
Defined.

(** ** Build information *)

Lemma contains_app (needle a b : string) :
  contains needle (a +++ needle +++ b) = true.
Proof.
  induction a as [|c a IH].
  - cbn [String.append]. destruct (needle +++ b) eqn:E;
      cbn [contains]; rewrite <- ?E, prefix_append; reflexivity.
  - cbn [String.append contains]. rewrite IH. apply orb_true_r.
Qed.

(** X26. [get_firefox_channel] tests for beta, then release, then esr: a
    repository whose name holds [release] anywhere, as every repository
    under releases/ does, is never reported as esr or nightly. *)
Theorem get_firefox_channel_release_first
    (get_version : string -> option (string -> option string))
    (build_path : string) (info : string -> option string) (a b : string) :
  get_version build_path = Some info ->
  info "application_repository" = Some (a +++ "release" +++ b) ->
  get_firefox_channel get_version build_path = Some "beta" \/
  get_firefox_channel get_version build_path = Some "release".
Proof.
  intros Hinfo Hrepo.
  unfold get_firefox_channel, get_firefox_info, item. rewrite Hinfo, Hrepo.
  rewrite (contains_app "release" a b).
  destruct (contains "beta" (a +++ "release" +++ b)); [left | right]; reflexivity.
Qed.

Lemma get_firefox_channel_release_first_witness :
  get_firefox_channel esr_build "/opt/firefox/firefox" = Some "release".
Proof.
  destruct (get_firefox_channel_release_first esr_build "/opt/firefox/firefox"
              (fun key => if String.eqb key "application_repository"
                          then Some "https://hg.mozilla.org/releases/mozilla-esr60"
                          else None)
              "https://hg.mozilla.org/" "s/mozilla-esr60") as [H|H].
  - reflexivity.
  - reflexivity.
  - discriminate H.
  - exact H.
Defined.

Lemma create_firefox_args_error_witness :
  snd (create_firefox_args (sized_options "wide")) = inl incorrect_window_size.
Proof.
  destruct (create_firefox_args_error (sized_options "wide")) as [[_ H] Hsame].
  destruct H as [e He].
  - split; [reflexivity|]. intros w h E. discriminate.
  - rewrite He. f_equal. apply Hsame. exact He.
Defined.

(** ** Launching *)

(** X27. [confirm_firefox_launch] returns after the one wait when the logo
    shows.  When the wait raises an error of class [Exception], of
    whatever kind, the only further call is [app.finish(1)], and the flow
    ends as that call ends. *)
Theorem confirm_firefox_launch_finishes (R : Type) (w : World) (h : list Event) :
  let logo := EWait (Pattern_ "iris_logo.png") 20 in
  (fault w h logo = None ->
   confirm_firefox_launch (R:=R) w h = ([logo], Next tt)) /\
  (forall x, fault w h logo = Some x -> is_Exception x = true ->
   events (confirm_firefox_launch (R:=R) w h) = [logo; EAppFinish 1] /\
   outcome (result (confirm_firefox_launch (R:=R) w h))
   = fault w (h ++ [logo]) (EAppFinish 1)).
Proof.
  cbv zeta. unfold confirm_firefox_launch. split.
  - intros Hshown. run_all. reflexivity.
  - intros x Hf Hx. run_all. rewrite Hx. run_py.
    destruct (fault w _ (EAppFinish 1)); split; reflexivity.
Qed.

Lemma confirm_firefox_launch_finishes_witness :
  events (confirm_firefox_launch (R:=unit) blind_world [])
  = [EWait (Pattern_ "iris_logo.png") 20; EAppFinish 1].
Proof.
  destruct (confirm_firefox_launch_finishes unit blind_world []) as [_ H].
  destruct (H (mkExn FindError "pattern not found")) as [H' _].
  - reflexivity.
  - reflexivity.
  - exact H'.
Defined.
